(** * Sales dashboard (app.py): data generation, filters, aggregation, CSV export

    A shallow embedding of the data pipeline of [app.py]:
    - [generate_data]: one row per day of 2023, sales drawn from numpy's
      global random state after [np.random.seed(42)];
    - the date-range filter of the Dashboard page and the membership filter
      of the Data Explorer page, both written as pandas boolean masks;
    - [Series.sum] and [groupby(...).sum()];
    - [to_csv(index=False).encode('utf-8')].

    A data frame is the list of its rows, in index order.  The [Date] column
    holds midnight timestamps, kept as a day count since 1970-01-01.  The
    [Sales] column is binary64 ([PrimFloat]); [np.sin], which has no
    definition here, is a parameter of the generator.  The filters do not
    look at the sales and are stated for any type of the column. *)

From Stdlib Require Import ZArith Bool Lia Ascii String List Sorted.
From Stdlib Require Import Floats.
Import ListNotations.

Set Warnings "-inexact-float".

Open Scope Z_scope.

(** ** Calendar *)

Module Calendar.

(** [datetime.date]: compared as the tuple (year, month, day). *)
Record date : Type := mkdate { year : Z; month : Z; day : Z }.

Definition date_eqb (a b : date) : bool :=
  (year a =? year b) && (month a =? month b) && (day a =? day b).

Definition date_ltb (a b : date) : bool :=
  (year a <? year b)
  || ((year a =? year b)
      && ((month a <? month b) || ((month a =? month b) && (day a <? day b)))).

Definition date_leb (a b : date) : bool := date_ltb a b || date_eqb a b.

(** [a >= b] on dates is [b <= a]. *)
Definition date_geb (a b : date) : bool := date_leb b a.

Definition is_leapyear (y : Z) : bool :=
  (y mod 4 =? 0) && (negb (y mod 100 =? 0) || (y mod 400 =? 0)).

Definition days_per_month_table (leap : bool) : list Z :=
  if leap then [31; 29; 31; 30; 31; 30; 31; 31; 30; 31; 30; 31]
  else [31; 28; 31; 30; 31; 30; 31; 31; 30; 31; 30; 31].

(** A midnight [Timestamp]: days since 1970-01-01. *)
Definition Timestamp : Type := Z.

(** numpy's [get_datetimestruct_days]: calendar date to day count.  The
    divisions are C divisions (truncating), hence [Z.quot]. *)
Definition get_datetimestruct_days (d : date) : Z :=
  let y0 := year d - 1970 in
  let days0 := y0 * 365 in
  let days1 :=
    if 0 <=? days0 then
      let y1 := y0 + 1 in
      let y2 := y1 + 68 in
      let y3 := y2 + 300 in
      days0 + Z.quot y1 4 - Z.quot y2 100 + Z.quot y3 400
    else
      let y1 := y0 - 2 in
      let y2 := y1 - 28 in
      days0 + Z.quot y1 4 - Z.quot y2 100 + Z.quot y2 400 in
  let lengths := days_per_month_table (is_leapyear (year d)) in
  let before := fold_right Z.add 0 (firstn (Z.to_nat (month d - 1)) lengths) in
  days1 + before + (day d - 1).

(** numpy's [days_to_yearsdays]: the year of a day count and the day within
    that year. *)
Definition days_to_yearsdays (days_ : Z) : Z * Z :=
  let days_per_400years := 400 * 365 + 100 - 4 + 1 in
  let days := days_ - (365 * 30 + 7) in
  let year := 400 * (days / days_per_400years) in
  let days := days mod days_per_400years in
  let '(year, days) :=
    if 366 <=? days then
      let year := year + 100 * ((days - 1) / (100 * 365 + 25 - 1)) in
      let days := (days - 1) mod (100 * 365 + 25 - 1) in
      if 365 <=? days then
        let year := year + 4 * ((days + 1) / (4 * 365 + 1)) in
        let days := (days + 1) mod (4 * 365 + 1) in
        if 366 <=? days then
          (year + (days - 1) / 365, (days - 1) mod 365)
        else (year, days)
      else (year, days)
    else (year, days) in
  (year + 2000, days).

(** The month loop of [set_datetimestruct_days]. *)
Fixpoint month_of_yearday (lengths : list Z) (i : Z) (days : Z) : Z * Z :=
  match lengths with
  | [] => (i + 1, days + 1)
  | len :: rest =>
      if days <? len then (i + 1, days + 1)
      else month_of_yearday rest (i + 1) (days - len)
  end.

(** [Timestamp.date()]. *)
Definition Timestamp_date (t : Timestamp) : date :=
  let '(y, days) := days_to_yearsdays t in
  let '(m, d) := month_of_yearday (days_per_month_table (is_leapyear y)) 0 days in
  mkdate y m d.

(** What counts as a calendar date. *)
Definition days_in_month (y m : Z) : Z :=
  nth (Z.to_nat (m - 1)) (days_per_month_table (is_leapyear y)) 0.

Definition valid_date (d : date) : bool :=
  (1 <=? month d) && (month d <=? 12)
  && (1 <=? day d) && (day d <=? days_in_month (year d) (month d)).

(** The day after [d], stepping over month and year ends. *)
Definition next_day (d : date) : date :=
  if day d <? days_in_month (year d) (month d) then
    mkdate (year d) (month d) (day d + 1)
  else if month d <? 12 then mkdate (year d) (month d + 1) 1
  else mkdate (year d + 1) 1 1.

(** All the days of year [y], January 1 first. *)
Definition calendar_year (y : Z) : list date :=
  flat_map
    (fun m => map (fun d => mkdate y (Z.of_nat m) (Z.of_nat d))
                  (seq 1 (Z.to_nat (days_in_month y (Z.of_nat m)))))
    (seq 1 12).

End Calendar.
Import Calendar.


(** ** Option as the error monad: [None] is a raised exception *)

Definition obind {A B : Type} (o : option A) (k : A -> option B) : option B :=
  match o with
  | Some a => k a
  | None => None
  end.

Notation "x <- o ;; k" := (obind o (fun x => k))
  (at level 61, o at next level, right associativity).

(** ** pandas: timestamps, frames *)

Module Pandas.

Definition digit_of_ascii (c : ascii) : option Z :=
  let n := Z.of_nat (nat_of_ascii c) in
  if (48 <=? n) && (n <=? 57) then Some (n - 48) else None.

(** [pd.Timestamp] of an ISO [YYYY-MM-DD] string; any other text, or a day
    that is not on the calendar, raises. *)
Definition to_datetime (s : string) : option Timestamp :=
  match list_ascii_of_string s with
  | [y1; y2; y3; y4; s1; m1; m2; s2; d1; d2] =>
      a <- digit_of_ascii y1 ;; b <- digit_of_ascii y2 ;;
      c <- digit_of_ascii y3 ;; d <- digit_of_ascii y4 ;;
      e <- digit_of_ascii m1 ;; f <- digit_of_ascii m2 ;;
      g <- digit_of_ascii d1 ;; h <- digit_of_ascii d2 ;;
      let dt := mkdate (1000 * a + 100 * b + 10 * c + d) (10 * e + f) (10 * g + h) in
      if Ascii.eqb s1 "-" && Ascii.eqb s2 "-" && valid_date dt
      then Some (get_datetimestruct_days dt) else None
  | _ => None
  end.

(** [pd.date_range(start, end, freq='D')]: every midnight from [start] to
    [end], both included; empty when [end] is before [start]. *)
Definition date_range (start end_ : string) : option (list Timestamp) :=
  a <- to_datetime start ;;
  b <- to_datetime end_ ;;
  Some (map (fun k => a + Z.of_nat k) (seq 0 (Z.to_nat (b - a + 1)))).

Section Frame.

Variable F : Type.

(** A row of the frame built by [generate_data]. *)
Record Row : Type := mkRow {
  Date : Timestamp;
  Sales : F;
  Category : string;
  Region : string
}.

Definition DataFrame : Type := list Row.

Fixpoint zip_rows (ds : list Timestamp) (ss : list F) (cs rs : list string)
  : DataFrame :=
  match ds, ss, cs, rs with
  | d :: ds', s :: ss', c :: cs', r :: rs' =>
      mkRow d s c r :: zip_rows ds' ss' cs' rs'
  | _, _, _, _ => []
  end.

(** [pd.DataFrame({'Date': ..., 'Sales': ..., 'Category': ..., 'Region': ...})]:
    raises unless all four arrays have the same length. *)
Definition mkDataFrame (ds : list Timestamp) (ss : list F) (cs rs : list string)
  : option DataFrame :=
  if (length ss =? length ds)%nat && (length cs =? length ds)%nat
     && (length rs =? length ds)%nat
  then Some (zip_rows ds ss cs rs) else None.

End Frame.

Arguments mkRow {F}.
Arguments Date {F}.
Arguments Sales {F}.
Arguments Category {F}.
Arguments Region {F}.
Arguments zip_rows {F}.
Arguments mkDataFrame {F}.

End Pandas.
Import Pandas.

(** ** numpy: arrays and the global random state *)

Module Numpy.

(** [np.arange(n)]: the integers from 0 to [n - 1]. *)
Definition arange (n : nat) : list Z := map Z.of_nat (seq 0 n).

(** An int64 as a float64: exact up to 2^53 in magnitude, rounded beyond. *)
Definition float_of_int (z : Z) : float :=
  if z <? 0 then PrimFloat.opp (PrimFloat.of_uint63 (Uint63.of_Z (- z)))
  else PrimFloat.of_uint63 (Uint63.of_Z z).

(** An int array that meets a float is converted element by element. *)
Definition astype_float (xs : list Z) : list float := map float_of_int xs.

(** [arr * c] on a float array, and [np.sin(arr)] for a sine [sin64] on
    binary64, element by element. *)
Definition mul_scalar (xs : list float) (c : float) : list float :=
  map (fun x => (x * c)%float) xs.
Definition np_sin (sin64 : float -> float) (xs : list float) : list float :=
  map sin64 xs.

Fixpoint add_elementwise (xs ys : list float) : list float :=
  match xs, ys with
  | x :: xs', y :: ys' => (x + y)%float :: add_elementwise xs' ys'
  | _, _ => []
  end.

(** [a + b] on one-dimensional arrays: equal lengths add element by
    element, a one-element array is broadcast, anything else raises. *)
Definition np_add (xs ys : list float) : option (list float) :=
  if (length xs =? length ys)%nat then Some (add_elementwise xs ys)
  else match xs, ys with
       | [x], _ => Some (map (fun y => (x + y)%float) ys)
       | _, [y] => Some (map (fun x => (x + y)%float) xs)
       | _, _ => None
       end.

End Numpy.
Import Numpy.

(** ** generate_data *)

Definition category_names : list string :=
  ["Electronics"; "Clothing"; "Food"; "Books"; "Home"]%string.

Definition region_names : list string :=
  ["North"; "South"; "East"; "West"; "Central"]%string.

Section Generator.

(** numpy's global [RandomState].  [seed k] is the state installed by
    [np.random.seed(k)], whatever the state was before; [randint lo hi n]
    draws [n] integers and advances the state. *)
Variable rng_state : Type.
Variable seed : Z -> rng_state.
Variable randint : Z -> Z -> nat -> rng_state -> list Z * rng_state.

(** [np.sin] on one binary64 value. *)
Variable sin64 : float -> float.

(** [np.random.choice(a, size=n)]: [n] indices from [randint(0, len(a))],
    then [a[idx]]. *)
Definition choice (a : list string) (size : nat) (s : rng_state)
  : list string * rng_state :=
  let '(idx, s') := randint 0 (Z.of_nat (length a)) size s in
  (map (fun i => nth (Z.to_nat i) a EmptyString) idx, s').

(** The body of [generate_data], run from global random state [s0]. *)
Definition generate_data (s0 : rng_state)
  : option (DataFrame float) * rng_state :=
  match date_range "2023-01-01" "2023-12-31" with
  | None => (None, s0)
  | Some dates =>
      let s1 := seed 42 in
      let '(ints, s2) := randint 100 1000 (length dates) s1 in
      let wave :=
        mul_scalar
          (np_sin sin64
             (mul_scalar (astype_float (arange (length dates))) 0.1%float))
          100%float in
      match np_add (astype_float ints) wave with
      | None => (None, s2)
      | Some sales =>
          let '(categories, s3) := choice category_names (length dates) s2 in
          let '(regions, s4) := choice region_names (length dates) s3 in
          (mkDataFrame dates sales categories regions, s4)
      end
  end.

(** [@st.cache_data]: the first call runs the body and stores the frame it
    returns, later calls return the stored frame and leave the random state
    alone.  A call that raises stores nothing. *)
Definition cache : Type := option (DataFrame float).

Definition generate_data_cached (c : cache) (s : rng_state)
  : option (DataFrame float) * cache * rng_state :=
  match c with
  | Some df => (Some df, c, s)
  | None => let '(r, s') := generate_data s in (r, r, s')
  end.

End Generator.

Arguments choice {rng_state}.
Arguments generate_data {rng_state}.
Arguments generate_data_cached {rng_state}.

(** ** The two filters *)

Section Query.

Variable F : Type.

(** [data['Date'].dt.date]. *)
Definition dt_date (col : list Timestamp) : list date := map Timestamp_date col.

(** [col >= d] and [col <= d] on a column of dates. *)
Definition series_ge (col : list date) (d : date) : list bool :=
  map (fun x => date_geb x d) col.
Definition series_le (col : list date) (d : date) : list bool :=
  map (fun x => date_leb x d) col.

(** [Series.isin(values)]. *)
Definition isin (col : list string) (values : list string) : list bool :=
  map (fun x => existsb (String.eqb x) values) col.

(** [m1 & m2] on two masks over the same index. *)
Fixpoint mask_and (m1 m2 : list bool) : list bool :=
  match m1, m2 with
  | a :: m1', b :: m2' => (a && b) :: mask_and m1' m2'
  | _, _ => []
  end.

Fixpoint select_rows (df : DataFrame F) (mask : list bool) : DataFrame F :=
  match df, mask with
  | r :: df', b :: mask' =>
      if b then r :: select_rows df' mask' else select_rows df' mask'
  | _, _ => []
  end.

(** [df[mask]]: the rows whose mask entry is true; a mask of the wrong
    length raises. *)
Definition getitem_mask (df : DataFrame F) (mask : list bool)
  : option (DataFrame F) :=
  if (length mask =? length df)%nat then Some (select_rows df mask) else None.

(** Dashboard page:
    [data[(data['Date'].dt.date >= start_date) & (data['Date'].dt.date <= end_date)]]. *)
Definition filter_by_date (data : DataFrame F) (start_date end_date : date)
  : option (DataFrame F) :=
  getitem_mask data
    (mask_and (series_ge (dt_date (map Date data)) start_date)
              (series_le (dt_date (map Date data)) end_date)).

(** Data Explorer page:
    [data[data['Category'].isin(selected_categories) & data['Region'].isin(selected_regions)]]. *)
Definition filter_by_membership (data : DataFrame F)
    (selected_categories selected_regions : list string)
  : option (DataFrame F) :=
  getitem_mask data
    (mask_and (isin (map Category data) selected_categories)
              (isin (map Region data) selected_regions)).

(** [Series.min()] and [Series.max()] on the timestamps; [None] is [NaT],
    the answer on an empty column. *)
Definition Series_min (col : list Timestamp) : option Timestamp :=
  match col with
  | [] => None
  | t :: rest => Some (fold_left Z.min rest t)
  end.

Definition Series_max (col : list Timestamp) : option Timestamp :=
  match col with
  | [] => None
  | t :: rest => Some (fold_left Z.max rest t)
  end.

(** The defaults of the two date inputs:
    [data['Date'].min().date()] and [data['Date'].max().date()]. *)
Definition default_start_date (data : DataFrame F) : option date :=
  option_map Timestamp_date (Series_min (map Date data)).
Definition default_end_date (data : DataFrame F) : option date :=
  option_map Timestamp_date (Series_max (map Date data)).

(** [Series.unique()]: the distinct values, in order of first appearance;
    the default selection of both multiselects. *)
Fixpoint unique_from (seen : list string) (col : list string) : list string :=
  match col with
  | [] => []
  | x :: rest =>
      if existsb (String.eqb x) seen then unique_from seen rest
      else x :: unique_from (x :: seen) rest
  end.

Definition unique (col : list string) : list string := unique_from [] col.

End Query.

Arguments select_rows {F}.
Arguments getitem_mask {F}.
Arguments filter_by_date {F}.
Arguments filter_by_membership {F}.
Arguments default_start_date {F}.
Arguments default_end_date {F}.

(** ** Sums *)

Section Aggregate.

Variable F : Type.
Variable zero : F.
Variable add : F -> F -> F.

(** [Series.sum()]: the values added to 0 from left to right. *)
Definition Series_sum (xs : list F) : F := fold_left add xs zero.

(** One step of the grouped sum: add [v] to the accumulator of key [k],
    opening the group at 0 when [k] is new.  Groups are kept in key order,
    as [groupby] sorts its keys. *)
Fixpoint group_add (k : string) (v : F) (groups : list (string * F))
  : list (string * F) :=
  match groups with
  | [] => [(k, add zero v)]
  | (k', acc) :: rest =>
      match String.compare k k' with
      | Eq => (k', add acc v) :: rest
      | Lt => (k, add zero v) :: groups
      | Gt => (k', acc) :: group_add k v rest
      end
  end.

(** [df.groupby(key)['Sales'].sum().reset_index()]: each group adds up its
    rows in frame order. *)
Definition groupby_sum (key : Row F -> string) (df : DataFrame F)
  : list (string * F) :=
  fold_left (fun groups r => group_add (key r) (Sales r) groups) df [].

(** The "Total Sales" figure, before formatting. *)
Definition total_sales (df : DataFrame F) : F := Series_sum (map Sales df).

(** The sum of the grouped sums. *)
Definition sum_of_groups (groups : list (string * F)) : F :=
  Series_sum (map snd groups).

End Aggregate.

Arguments Series_sum {F}.
Arguments group_add {F}.
Arguments groupby_sum {F}.
Arguments total_sales {F}.
Arguments sum_of_groups {F}.

(** ** Text of numbers *)

Module NumStr.

Definition digit_char (d : Z) : ascii := ascii_of_nat (48 + Z.to_nat d).

Fixpoint Z_digits_aux (fuel : nat) (n : Z) (acc : list Z) : list Z :=
  match fuel with
  | O => acc
  | S fuel' =>
      let acc' := n mod 10 :: acc in
      if n / 10 =? 0 then acc' else Z_digits_aux fuel' (n / 10) acc'
  end.

(** The decimal digits of [n >= 0], most significant first. *)
Definition Z_digits (n : Z) : list Z :=
  Z_digits_aux (S (Z.to_nat (Z.log2 n))) n [].

Definition digits_string (ds : list Z) : string :=
  string_of_list_ascii (map digit_char ds).

(** [str(n)] for [n >= 0]. *)
Definition str_nonneg (n : Z) : string := digits_string (Z_digits n).

(** [f"{n:02d}"] for [0 <= n]. *)
Definition str_02d (n : Z) : string :=
  if n <? 10 then String "0" (str_nonneg n) else str_nonneg n.

Definition zeros (n : Z) : list Z := repeat 0 (Z.to_nat n).

(** Trailing zeros are dropped, down to one digit; the list is given last
    digit first. *)
Fixpoint strip_trailing_zeros_rev (rev_ds : list Z) : list Z :=
  match rev_ds with
  | 0 :: (_ :: _) as rest => strip_trailing_zeros_rev rest
  | _ => rev_ds
  end.

(** ** Shortest decimal of a binary64 value

    A finite positive value is [m * 2^e].  Its rounding interval has radius
    half a unit in the last place (a quarter below a power of two), closed
    when [m] is even.  The shortest decimal is the one with the fewest
    digits inside that interval, the nearest to the value among those. *)

(** Compare [n * 2^e] with [q * 10^j]. *)
Definition cmp_bin_dec (n e q j : Z) : comparison :=
  (n * 2 ^ Z.max e 0 * 10 ^ Z.max (- j) 0
     ?= q * 10 ^ Z.max j 0 * 2 ^ Z.max (- e) 0).

(** The floor of [n * 2^e / 10^j]. *)
Definition floor_bin_dec (n e j : Z) : Z :=
  (n * 2 ^ Z.max e 0 * 10 ^ Z.max (- j) 0)
    / (10 ^ Z.max j 0 * 2 ^ Z.max (- e) 0).

Fixpoint decpt_from (fuel : nat) (m e p : Z) : Z :=
  match fuel with
  | O => p
  | S fuel' =>
      match cmp_bin_dec m e 1 p with
      | Lt => p
      | _ => decpt_from fuel' m e (p + 1)
      end
  end.

(** The [p] with [10^(p-1) <= m * 2^e < 10^p]. *)
Definition decpt_of (m e : Z) : Z :=
  decpt_from 8 m e ((Z.log2 m + e) * 30103 / 100000 - 1).

Definition in_interval (m e : Z) (q j : Z) : bool :=
  let boundary := (m =? 2 ^ 52) && (-1074 <? e) in
  let lo := if boundary then 4 * m - 1 else 4 * m - 2 in
  let hi := 4 * m + 2 in
  let closed := Z.even m in
  let above_lo :=
    match cmp_bin_dec lo (e - 2) q j with
    | Lt => true | Eq => closed | Gt => false
    end in
  let below_hi :=
    match cmp_bin_dec hi (e - 2) q j with
    | Gt => true | Eq => closed | Lt => false
    end in
  above_lo && below_hi.

(** The best candidate with [k] digits, if one lies in the interval. *)
Definition candidate (m e p k : Z) : option (Z * Z) :=
  let j := p - k in
  let qf := floor_bin_dec m e j in
  let qc := qf + 1 in
  match in_interval m e qf j, in_interval m e qc j with
  | true, true =>
      match cmp_bin_dec (2 * m) e (2 * qf + 1) j with
      | Lt => Some (qf, j)
      | Gt => Some (qc, j)
      | Eq => if Z.even qf then Some (qf, j) else Some (qc, j)
      end
  | true, false => Some (qf, j)
  | false, true => Some (qc, j)
  | false, false => None
  end.

Fixpoint shortest_from (fuel : nat) (m e p k : Z) : Z * Z :=
  match fuel with
  | O => (floor_bin_dec m e (p - 17), p - 17)
  | S fuel' =>
      match candidate m e p k with
      | Some r => r
      | None => shortest_from fuel' m e p (k + 1)
      end
  end.

(** The digits [ds] and the position [dp] of the decimal point: the value
    printed is [0.ds * 10^dp]. *)
Definition shortest_digits (m e : Z) : list Z * Z :=
  let '(q, j) := shortest_from 17 m e (decpt_of m e) 1 in
  let all := Z_digits q in
  (rev (strip_trailing_zeros_rev (rev all)), Z.of_nat (length all) + j).

(** Positional notation, keeping one zero after the point when the
    fraction is empty. *)
Definition positional (ds : list Z) (dp : Z) : string :=
  let n := Z.of_nat (length ds) in
  if dp <=? 0 then
    ("0." ++ digits_string (zeros (- dp) ++ ds))%string
  else if n <=? dp then
    (digits_string (ds ++ zeros (dp - n)) ++ ".0")%string
  else
    (digits_string (firstn (Z.to_nat dp) ds) ++ "."
       ++ digits_string (skipn (Z.to_nat dp) ds))%string.

(** Scientific notation: one digit, the others after a point if there are
    any, then the exponent with a sign and at least two digits. *)
Definition scientific (ds : list Z) (dp : Z) : string :=
  let x := dp - 1 in
  let mant :=
    match ds with
    | [] => "0"%string
    | [d] => digits_string [d]
    | d :: rest => (digits_string [d] ++ "." ++ digits_string rest)%string
    end in
  (mant ++ "e" ++ (if (x <? 0)%Z then "-" else "+") ++ str_02d (Z.abs x))%string.

(** The binary64 value of the literal [1.e-4]. *)
Definition one_e_minus_4 : float := 0x1.a36e2eb1c432dp-14%float.

(** numpy's test for positional notation: the value is zero, or
    [1e-4 <= |x| < 1e16]. *)
Definition positional_range (x : float) : bool :=
  let absval := PrimFloat.abs x in
  PrimFloat.eqb absval 0
  || (PrimFloat.ltb absval 1e16 && PrimFloat.leb one_e_minus_4 absval).

(** [str] of a numpy float64: the shortest digits that read back as the
    same value, positional in the range above, scientific outside it. *)
Definition float64_str (x : float) : string :=
  match Prim2SF x with
  | S754_nan => "nan"%string
  | S754_infinity s => if s then "-inf"%string else "inf"%string
  | S754_zero s => if s then "-0.0"%string else "0.0"%string
  | S754_finite s m e =>
      let '(ds, dp) := shortest_digits (Zpos m) e in
      let body :=
        if positional_range x then positional ds dp else scientific ds dp in
      if s then String "-" body else body
  end.

End NumStr.
Import NumStr.

(** ** to_csv *)

Section ToCsv.

Variable F : Type.

(** How a [Sales] value is written. *)
Variable float_field : F -> string.

Definition quotechar : ascii := ascii_of_nat 34.
Definition LF : ascii := ascii_of_nat 10.
Definition CR : ascii := ascii_of_nat 13.

Definition lineterminator : string := String LF EmptyString.

Definition is_special (c : ascii) : bool :=
  Ascii.eqb c "," || Ascii.eqb c quotechar || Ascii.eqb c LF || Ascii.eqb c CR.

Fixpoint needs_quote (s : string) : bool :=
  match s with
  | EmptyString => false
  | String c rest => is_special c || needs_quote rest
  end.

Fixpoint double_quotes (s : string) : string :=
  match s with
  | EmptyString => EmptyString
  | String c rest =>
      if Ascii.eqb c quotechar then String c (String c (double_quotes rest))
      else String c (double_quotes rest)
  end.

(** Minimal quoting: a field is quoted only when it holds the delimiter,
    the quote character or a line break. *)
Definition csv_field (s : string) : string :=
  if needs_quote s
  then String quotechar (double_quotes s ++ String quotechar EmptyString)
  else s.

(** [csv.writer.writerow]. *)
Definition writerow (fields : list string) : string :=
  (String.concat "," (map csv_field fields) ++ lineterminator)%string.

(** A column of midnights is written as dates: [f"{year}-{month:02d}-{day:02d}"]. *)
Definition format_date (t : Timestamp) : string :=
  let d := Timestamp_date t in
  (str_nonneg (year d) ++ "-" ++ str_02d (month d) ++ "-" ++ str_02d (day d))%string.

Definition columns : list string := ["Date"; "Sales"; "Category"; "Region"]%string.

Definition row_fields (r : Row F) : list string :=
  [format_date (Date r); float_field (Sales r); Category r; Region r].

(** [df.to_csv(index=False)]: the column names, then the rows; the index
    is not written. *)
Definition to_csv (df : DataFrame F) : string :=
  (writerow columns ++ String.concat "" (map (fun r => writerow (row_fields r)) df))%string.

(** [df.to_csv(index=False).encode('utf-8')]; a [string] here is already
    the sequence of its UTF-8 bytes. *)
Definition to_csv_bytes (df : DataFrame F) : list Byte.byte :=
  list_byte_of_string (to_csv df).

End ToCsv.

Arguments row_fields {F}.
Arguments to_csv {F}.
Arguments to_csv_bytes {F}.

(** A float column: missing values ([NaN]) are written as the empty string,
    the others as numpy prints them. *)
Definition float64_field (x : float) : string :=
  match Prim2SF x with
  | S754_nan => EmptyString
  | _ => float64_str x
  end.

(** A number in plain decimal notation: an optional minus sign, digits, a
    point, digits. *)
Definition is_digit (c : ascii) : bool :=
  (48 <=? nat_of_ascii c)%nat && (nat_of_ascii c <=? 57)%nat.

Fixpoint all_digits (s : string) : bool :=
  match s with
  | EmptyString => true
  | String c rest => is_digit c && all_digits rest
  end.

Fixpoint plain_after_int (s : string) : bool :=
  match s with
  | EmptyString => false
  | String c rest =>
      if Ascii.eqb c "." then negb (String.eqb rest EmptyString) && all_digits rest
      else is_digit c && plain_after_int rest
  end.

Definition plain_unsigned (s : string) : bool :=
  match s with
  | EmptyString => false
  | String c _ => is_digit c && plain_after_int s
  end.

Definition plain_decimal (s : string) : bool :=
  match s with
  | String "-" rest => plain_unsigned rest
  | _ => plain_unsigned s
  end.

(** A date written as four digits, a dash, two digits, a dash, two digits. *)
Definition iso_date_shape (s : string) : bool :=
  match list_ascii_of_string s with
  | [y1; y2; y3; y4; s1; m1; m2; s2; d1; d2] =>
      is_digit y1 && is_digit y2 && is_digit y3 && is_digit y4
      && Ascii.eqb s1 "-" && is_digit m1 && is_digit m2
      && Ascii.eqb s2 "-" && is_digit d1 && is_digit d2
  | _ => false
  end.

(** Exactly [n] characters, all of them digits. *)
Definition digits_shape (n : nat) (s : string) : bool :=
  (String.length s =? n)%nat && all_digits s.

(** The range of [pd.Timestamp], in days: 1677-09-22 to 2262-04-11. *)
Definition Timestamp_min : Timestamp := -106751.
Definition Timestamp_max : Timestamp := 106751.

Definition in_Timestamp_range (t : Timestamp) : bool :=
  (Timestamp_min <=? t) && (t <=? Timestamp_max).

(** The order in which [groupby] lists its keys. *)
Definition key_lt (a b : string) : Prop := String.compare a b = Lt.

(** The sum of the sales of the rows of [p] whose key is [k], added in
    frame order. *)
Definition group_total {F : Type} (zero : F) (add : F -> F -> F)
    (key : Row F -> string) (k : string) (p : DataFrame F) : F :=
  Series_sum zero add (map Sales (filter (fun r => String.eqb (key r) k) p)).

(** The number written by a string of decimal digits, most significant
    first, continuing from [acc]; [None] if a character is not a digit. *)
Fixpoint digits_value (acc : Z) (s : string) : option Z :=
  match s with
  | EmptyString => Some acc
  | String c rest =>
      match digit_of_ascii c with
      | Some v => digits_value (10 * acc + v) rest
      | None => None
      end
  end.

(** [s] has [n] characters and reads as the number [v]. *)
Definition reads_as (n : nat) (v : Z) (s : string) : bool :=
  (String.length s =? n)%nat
  && match digits_value 0 s with
     | Some w => w =? v
     | None => false
     end.

(** ** Checks on concrete lists *)

(** [chain R l]: every element is [R]-related to the next one. *)
Fixpoint chain {A : Type} (R : A -> A -> bool) (l : list A) : bool :=
  match l with
  | a :: (b :: _) as tl => R a b && chain R tl
  | _ => true
  end.

(** [Subsequence l1 l2]: [l1] is [l2] with some elements left out, the
    others in their original order. *)
Inductive Subsequence {A : Type} : list A -> list A -> Prop :=
| Subsequence_nil : Subsequence [] []
| Subsequence_skip (x : A) (l1 l2 : list A) :
    Subsequence l1 l2 -> Subsequence l1 (x :: l2)
| Subsequence_keep (x : A) (l1 l2 : list A) :
    Subsequence l1 l2 -> Subsequence (x :: l1) (x :: l2).

(** The date column of the generated frame: 365 days from 2023-01-01. *)
Definition dates_2023 : list Timestamp :=
  map (fun k => 19358 + Z.of_nat k) (seq 0 365).

(** The sinusoidal term of the sales column, as [generate_data] computes it
    for 365 rows. *)
Definition wave_2023 (sin64 : float -> float) : list float :=
  mul_scalar
    (np_sin sin64 (mul_scalar (astype_float (arange 365)) 0.1%float))
    100%float.

(** A stand-in for [np.sin] where a concrete function is wanted: the first
    terms of the sine series. *)
Definition sin_series (x : float) : float :=
  (x - x * x * x / 6 + x * x * x * x * x / 120)%float.

(** ** A small generator that meets the interface of the random state *)

Module Lcg.

Definition state : Type := Z.

Definition seed (k : Z) : state := k.

Definition next (s : state) : state := (1103515245 * s + 12345) mod 2147483648.

Fixpoint randint (lo hi : Z) (n : nat) (s : state) : list Z * state :=
  match n with
  | O => ([], s)
  | S n' =>
      let s1 := next s in
      let '(rest, s2) := randint lo hi n' s1 in
      ((lo + s1 mod (hi - lo)) :: rest, s2)
  end.

End Lcg.

(** * Properties *)

(** ** Lists *)

Lemma chain_nth_error {A : Type} (R : A -> A -> bool) (l : list A) :
  chain R l = true ->
  forall i a b,
    nth_error l i = Some a -> nth_error l (S i) = Some b -> R a b = true.
Proof.
  induction l as [|x l IH]; intros Hc i a b Ha Hb.
  - destruct i; discriminate.
  - destruct l as [|y l']; [destruct i; discriminate|].
    simpl in Hc. apply andb_prop in Hc as [Hxy Hrest].
    destruct i as [|i].
    + simpl in Ha, Hb. congruence.
    + apply (IH Hrest i); assumption.
Qed.

Lemma nth_error_range (a : Z) (n i : nat) :
  (i < n)%nat ->
  nth_error (map (fun k => a + Z.of_nat k) (seq 0 n)) i = Some (a + Z.of_nat i).
Proof.
  intros Hi. rewrite nth_error_map, nth_error_seq.
  destruct (Nat.ltb_spec i n); [reflexivity | lia].
Qed.

Lemma range_sorted (a : Z) (n : nat) :
  StronglySorted Z.lt (map (fun k => a + Z.of_nat k) (seq 0 n)).
Proof.
  generalize 0%nat as b.
  induction n as [|n IH]; intros b; simpl; constructor.
  - apply IH.
  - apply Forall_forall. intros x Hx.
    apply in_map_iff in Hx as [k [<- Hk]].
    apply in_seq in Hk. lia.
Qed.

Lemma sorted_lt_NoDup (l : list Z) : StronglySorted Z.lt l -> NoDup l.
Proof.
  induction 1 as [|x l Hs IH Hall]; constructor; auto.
  intros Hin. rewrite Forall_forall in Hall. specialize (Hall x Hin). lia.
Qed.

(** ** Frames *)

Section FrameFacts.

Context {F : Type}.

Lemma zip_rows_Date (ds : list Timestamp) :
  forall (ss : list F) (cs rs : list string),
    length ss = length ds -> length cs = length ds -> length rs = length ds ->
    map Date (zip_rows ds ss cs rs) = ds.
Proof.
  induction ds as [|d ds IH]; intros ss cs rs Hs Hc Hr; [reflexivity|].
  destruct ss, cs, rs; try discriminate. simpl. f_equal.
  apply IH; simpl in *; lia.
Qed.

Lemma zip_rows_Sales (ds : list Timestamp) :
  forall (ss : list F) (cs rs : list string),
    length ss = length ds -> length cs = length ds -> length rs = length ds ->
    map Sales (zip_rows ds ss cs rs) = ss.
Proof.
  induction ds as [|d ds IH]; intros ss cs rs Hs Hc Hr.
  - destruct ss; [reflexivity | discriminate].
  - destruct ss, cs, rs; try discriminate. simpl. f_equal.
    apply IH; simpl in *; lia.
Qed.

Lemma mkDataFrame_ok (ds : list Timestamp) (ss : list F) (cs rs : list string) :
  length ss = length ds -> length cs = length ds -> length rs = length ds ->
  mkDataFrame ds ss cs rs = Some (zip_rows ds ss cs rs).
Proof.
  intros Hs Hc Hr. unfold mkDataFrame.
  rewrite Hs, Hc, Hr, Nat.eqb_refl. reflexivity.
Qed.

End FrameFacts.

(** ** numpy arrays *)

Lemma add_elementwise_length (xs : list float) :
  forall ys, length ys = length xs -> length (add_elementwise xs ys) = length xs.
Proof.
  induction xs as [|x xs IH]; intros [|y ys] H; simpl in *; try discriminate; auto.
Qed.

Lemma add_elementwise_nth_error (xs : list float) :
  forall ys i x y,
    nth_error xs i = Some x -> nth_error ys i = Some y ->
    nth_error (add_elementwise xs ys) i = Some (x + y)%float.
Proof.
  induction xs as [|x0 xs IH]; intros ys i x y Hx Hy.
  - destruct i; discriminate.
  - destruct ys as [|y0 ys]; [destruct i; discriminate|].
    destruct i as [|i]; simpl in *.
    + congruence.
    + eapply IH; eassumption.
Qed.

Lemma np_add_same_length (xs ys : list float) :
  length xs = length ys -> np_add xs ys = Some (add_elementwise xs ys).
Proof.
  intros H. unfold np_add. rewrite H, Nat.eqb_refl. reflexivity.
Qed.

Lemma arange_length (n : nat) : length (arange n) = n.
Proof. unfold arange. rewrite length_map, length_seq. reflexivity. Qed.

Lemma astype_float_length (xs : list Z) : length (astype_float xs) = length xs.
Proof. apply length_map. Qed.

(** ** The dates of 2023 *)

Lemma date_range_2023 : date_range "2023-01-01" "2023-12-31" = Some dates_2023.
Proof. reflexivity. Qed.

Lemma dates_2023_length : length dates_2023 = 365%nat.
Proof. reflexivity. Qed.

Lemma dates_2023_calendar : map Timestamp_date dates_2023 = calendar_year 2023.
Proof. vm_compute. reflexivity. Qed.

Lemma calendar_2023_chain :
  chain (fun a b => date_eqb b (next_day a)) (calendar_year 2023) = true.
Proof. vm_compute. reflexivity. Qed.

Lemma date_eqb_eq (a b : date) : date_eqb a b = true -> a = b.
Proof.
  destruct a as [ya ma da], b as [yb mb db]. unfold date_eqb. simpl.
  intros H. apply andb_prop in H as [H Hd]. apply andb_prop in H as [Hy Hm].
  apply Z.eqb_eq in Hy, Hm, Hd. congruence.
Qed.

(** ** The calendar of a year *)

Lemma calendar_year_complete (y : Z) (d : date) :
  valid_date d = true -> year d = y -> In d (calendar_year y).
Proof.
  destruct d as [yd m dd]. unfold valid_date. simpl. intros Hv ->.
  apply andb_prop in Hv as [Hv Hd2]. apply andb_prop in Hv as [Hv Hd1].
  apply andb_prop in Hv as [Hm1 Hm2].
  apply Z.leb_le in Hm1, Hm2, Hd1, Hd2.
  unfold calendar_year. apply in_flat_map.
  exists (Z.to_nat m). split; [apply in_seq; lia|].
  apply in_map_iff. exists (Z.to_nat dd).
  rewrite !Z2Nat.id by lia. split; [reflexivity|].
  apply in_seq. lia.
Qed.

Lemma calendar_2023_days :
  map get_datetimestruct_days (calendar_year 2023) = dates_2023.
Proof. vm_compute. reflexivity. Qed.

(** ** Binary64 multiplication commutes *)

Lemma SF64mul_comm (x y : spec_float) : SF64mul x y = SF64mul y x.
Proof.
  unfold SF64mul, SFmul.
  destruct x as [sx|sx| |sx mx ex], y as [sy|sy| |sy my ey];
    try reflexivity; rewrite ?(xorb_comm sx sy); try reflexivity.
  rewrite (Pos.mul_comm mx my), (Z.add_comm ex ey). reflexivity.
Qed.

Lemma float_mul_comm (x y : float) : (x * y = y * x)%float.
Proof. apply Prim2SF_inj. rewrite !mul_spec. apply SF64mul_comm. Qed.

(** ** generate_data *)

Section GeneratorFacts.

Variable rng_state : Type.
Variable seed : Z -> rng_state.
Variable randint : Z -> Z -> nat -> rng_state -> list Z * rng_state.
Variable sin64 : float -> float.

(** The contract of [randint]: [n] values, each in [[lo, hi)]. *)
Hypothesis randint_length :
  forall lo hi n s, length (fst (randint lo hi n s)) = n.
Hypothesis randint_range :
  forall lo hi n s, lo < hi ->
    Forall (fun x => lo <= x < hi) (fst (randint lo hi n s)).

Lemma choice_length (a : list string) (n : nat) (s : rng_state) :
  length (fst (choice randint a n s)) = n.
Proof.
  unfold choice.
  pose proof (randint_length 0 (Z.of_nat (length a)) n s) as H.
  destruct (randint 0 (Z.of_nat (length a)) n s) as [idx s'].
  simpl in *. rewrite length_map. exact H.
Qed.

Lemma wave_length : length (wave_2023 sin64) = 365%nat.
Proof.
  unfold wave_2023, mul_scalar, np_sin, astype_float. rewrite !length_map.
  apply arange_length.
Qed.

(** The frame [generate_data] returns, column by column. *)
Lemma generate_data_columns (s0 : rng_state) :
  exists cs rs,
    length cs = 365%nat /\ length rs = 365%nat /\
    fst (generate_data seed randint sin64 s0)
    = Some (zip_rows dates_2023 (add_elementwise (astype_float (fst (randint 100 1000 365 (seed 42)))) (wave_2023 sin64)) cs rs).
Proof.
  unfold generate_data. rewrite date_range_2023, dates_2023_length.
  fold (wave_2023 sin64).
  pose proof (randint_length 100 1000 365 (seed 42)) as Hl.
  destruct (randint 100 1000 365 (seed 42)) as [zs s2] eqn:Hr. cbn [fst] in Hl |- *.
  rewrite np_add_same_length
    by (rewrite astype_float_length, wave_length; exact Hl).
  pose proof (choice_length category_names 365 s2) as Hc.
  destruct (choice randint category_names 365 s2) as [cs s3].
  pose proof (choice_length region_names 365 s3) as Hg.
  destruct (choice randint region_names 365 s3) as [rs s4].
  cbn [fst] in Hc, Hg |- *.
  exists cs, rs. split; [exact Hc|]. split; [exact Hg|].
  apply mkDataFrame_ok.
  - rewrite add_elementwise_length;
      rewrite ?astype_float_length, ?wave_length; auto.
  - rewrite Hc. reflexivity.
  - rewrite Hg. reflexivity.
Qed.

Lemma sales_length : length (add_elementwise (astype_float (fst (randint 100 1000 365 (seed 42)))) (wave_2023 sin64)) = 365%nat.
Proof.
  rewrite add_elementwise_length;
    rewrite ?astype_float_length, ?wave_length, randint_length; reflexivity.
Qed.

(** C1: for seed 42 and year 2023, [generate_data] returns 365 rows, one
    for each calendar day of 2023 from January 1 to December 31 in order;
    each date is the day after the one before it, so the dates are strictly
    increasing with no gap and no duplicate. *)
Theorem generate_data_one_row_per_day (s0 : rng_state) :
  exists df,
    fst (generate_data seed randint sin64 s0) = Some df
    /\ length df = 365%nat
    /\ map (fun r => Timestamp_date (Date r)) df = calendar_year 2023
    /\ hd_error (map (fun r => Timestamp_date (Date r)) df) = Some (mkdate 2023 1 1)
    /\ last (map (fun r => Timestamp_date (Date r)) df) (mkdate 0 0 0) = mkdate 2023 12 31
    /\ (forall i a b,
          nth_error (map Date df) i = Some a ->
          nth_error (map Date df) (S i) = Some b ->
          b = a + 1 /\ Timestamp_date b = next_day (Timestamp_date a))
    /\ StronglySorted Z.lt (map Date df)
    /\ NoDup (map (fun r => Timestamp_date (Date r)) df)
    /\ (forall d, valid_date d = true -> year d = 2023 ->
          In d (map (fun r => Timestamp_date (Date r)) df)).
Proof.
  destruct (generate_data_columns s0) as [cs [rs [Hc [Hg Hdf]]]].
  eexists. split; [exact Hdf|].
  set (df := zip_rows dates_2023 (add_elementwise (astype_float (fst (randint 100 1000 365 (seed 42)))) (wave_2023 sin64)) cs rs).
  assert (HD : map Date df = dates_2023).
  { apply zip_rows_Date; rewrite ?sales_length, ?Hc, ?Hg; reflexivity. }
  assert (HC : map (fun r => Timestamp_date (Date r)) df = calendar_year 2023).
  { rewrite <- dates_2023_calendar, <- HD, map_map. reflexivity. }
  split; [rewrite <- (length_map Date), HD; reflexivity|].
  split; [exact HC|].
  rewrite HC, HD.
  split; [reflexivity|].
  split; [vm_compute; reflexivity|].
  split.
  { intros i a b Ha Hb.
    assert (Hi : (S i < 365)%nat).
    { rewrite <- dates_2023_length. apply nth_error_Some. congruence. }
    unfold dates_2023 in Ha, Hb.
    rewrite nth_error_range in Ha by lia. rewrite nth_error_range in Hb by lia.
    assert (Ea : a = 19358 + Z.of_nat i) by congruence.
    assert (Eb : b = 19358 + Z.of_nat (S i)) by congruence.
    clear Ha Hb. subst a b.
    split; [lia|].
    apply date_eqb_eq.
    apply (chain_nth_error _ _ calendar_2023_chain i);
      rewrite <- dates_2023_calendar, nth_error_map;
      unfold dates_2023; rewrite nth_error_range by lia; reflexivity. }
  split; [apply range_sorted|].
  split.
  { apply (NoDup_map_inv get_datetimestruct_days).
    rewrite calendar_2023_days. apply sorted_lt_NoDup, range_sorted. }
  intros d Hv Hy. apply calendar_year_complete; assumption.
Qed.

Lemma wave_nth_error (i : nat) :
  (i < 365)%nat ->
  nth_error (wave_2023 sin64) i
  = Some (sin64 (float_of_int (Z.of_nat i) * 0.1) * 100)%float.
Proof.
  intros Hi. unfold wave_2023, mul_scalar, np_sin, astype_float, arange.
  rewrite !nth_error_map, nth_error_seq.
  destruct (Nat.ltb_spec i 365); [reflexivity | lia].
Qed.

(** Row [i] of the generated frame: its sales value is the [i]-th integer
    drawn plus the [i]-th sinusoidal term. *)
Lemma generate_data_row (s0 : rng_state) :
  exists df,
    fst (generate_data seed randint sin64 s0) = Some df
    /\ length df = 365%nat
    /\ forall i, (i < 365)%nat ->
         exists r d,
           nth_error df i = Some r
           /\ nth_error (fst (randint 100 1000 365 (seed 42))) i = Some d
           /\ 100 <= d < 1000
           /\ Sales r
              = (float_of_int d
                 + sin64 (float_of_int (Z.of_nat i) * 0.1) * 100)%float.
Proof.
  destruct (generate_data_columns s0) as [cs [rs [Hc [Hg Hdf]]]].
  eexists. split; [exact Hdf|].
  set (ints := fst (randint 100 1000 365 (seed 42))).
  set (df := zip_rows dates_2023 (add_elementwise (astype_float ints) (wave_2023 sin64)) cs rs).
  assert (HS : map Sales df = add_elementwise (astype_float ints) (wave_2023 sin64)).
  { apply zip_rows_Sales;
      [unfold ints; rewrite sales_length | rewrite Hc | rewrite Hg]; reflexivity. }
  assert (HL : length df = 365%nat).
  { rewrite <- (length_map Sales), HS. apply sales_length. }
  split; [exact HL|].
  intros i Hi.
  destruct (nth_error df i) as [r|] eqn:Hr;
    [|apply nth_error_None in Hr; lia].
  assert (Hil : (i < length ints)%nat) by (unfold ints; rewrite randint_length; exact Hi).
  destruct (nth_error ints i) as [d|] eqn:Hd;
    [|apply nth_error_None in Hd; lia].
  exists r, d. split; [reflexivity|]. split; [reflexivity|].
  split.
  - pose proof (randint_range 100 1000 365 (seed 42) ltac:(lia)) as Hrange.
    rewrite Forall_forall in Hrange. apply Hrange.
    eapply nth_error_In. exact Hd.
  - assert (H1 : nth_error (map Sales df) i = Some (Sales r))
      by (apply map_nth_error; exact Hr).
    rewrite HS in H1.
    unfold astype_float in H1.
    rewrite (add_elementwise_nth_error _ _ i (float_of_int d) _
               (map_nth_error float_of_int i ints Hd) (wave_nth_error i Hi))
      in H1.
    congruence.
Qed.

(** C2: row [i] of the generated frame, for every [i] from 0 to 364, has
    as sales value the [i]-th integer of [randint(100, 1000)], which lies
    in [[100, 1000)], plus [100 * sin(0.1 * i)], computed in binary64. *)
Theorem generate_data_sales_formula (s0 : rng_state) :
  exists df,
    fst (generate_data seed randint sin64 s0) = Some df
    /\ length df = 365%nat
    /\ forall i, (i < 365)%nat ->
         exists r d,
           nth_error df i = Some r
           /\ nth_error (fst (randint 100 1000 365 (seed 42))) i = Some d
           /\ 100 <= d < 1000
           /\ Sales r
              = (float_of_int d
                 + 100 * sin64 (0.1 * float_of_int (Z.of_nat i)))%float.
Proof.
  destruct (generate_data_row s0) as [df [Hdf [HL Hrow]]].
  exists df. split; [exact Hdf|]. split; [exact HL|].
  intros i Hi. destruct (Hrow i Hi) as [r [d [Hr [Hd [Hb Hs]]]]].
  exists r, d. repeat split; try assumption; try lia.
  rewrite Hs, (float_mul_comm 0.1), (float_mul_comm 100). reflexivity.
Qed.

(** C7: the frame does not depend on the random state [generate_data]
    starts from, so two runs return the same frame; and through the cache a
    second call returns what the first one returned. *)
Theorem generate_data_deterministic :
  (forall s1 s2 : rng_state,
     fst (generate_data seed randint sin64 s1) = fst (generate_data seed randint sin64 s2))
  /\ (forall (c : cache) (s : rng_state),
        let first := generate_data_cached seed randint sin64 c s in
        let second :=
          generate_data_cached seed randint sin64 (snd (fst first)) (snd first) in
        fst (fst second) = fst (fst first)).
Proof.
  assert (Hdet : forall s1 s2 : rng_state,
             fst (generate_data seed randint sin64 s1)
             = fst (generate_data seed randint sin64 s2)).
  { intros s1 s2. unfold generate_data.
    destruct (date_range "2023-01-01" "2023-12-31") as [dates|]; [|reflexivity].
    destruct (randint 100 1000 (length dates) (seed 42)) as [zs s].
    destruct (np_add _ _); reflexivity. }
  split; [exact Hdet|].
  intros c s. cbv zeta. unfold generate_data_cached.
  destruct c as [df|]; [reflexivity|].
  destruct (generate_data seed randint sin64 s) as [r s'] eqn:Hg. cbn [fst snd].
  destruct r as [df|]; [reflexivity|].
  destruct (generate_data seed randint sin64 s') as [r' s''] eqn:Hg'. cbn [fst snd].
  pose proof (Hdet s' s) as H. rewrite Hg, Hg' in H. exact H.
Qed.

End GeneratorFacts.

(** ** The contract of the random state is met by [Lcg] *)

Lemma Lcg_randint_length (lo hi : Z) (n : nat) (s : Lcg.state) :
  length (fst (Lcg.randint lo hi n s)) = n.
Proof.
  revert s. induction n as [|n IH]; intros s; [reflexivity|].
  simpl. specialize (IH (Lcg.next s)).
  destruct (Lcg.randint lo hi n (Lcg.next s)) as [rest s2].
  simpl in *. congruence.
Qed.

Lemma Lcg_randint_range (lo hi : Z) (n : nat) (s : Lcg.state) :
  lo < hi -> Forall (fun x => lo <= x < hi) (fst (Lcg.randint lo hi n s)).
Proof.
  intros Hlt. revert s. induction n as [|n IH]; intros s; [constructor|].
  simpl. specialize (IH (Lcg.next s)).
  destruct (Lcg.randint lo hi n (Lcg.next s)) as [rest s2].
  simpl in *. constructor; [|exact IH].
  pose proof (Z.mod_pos_bound (Lcg.next s) (hi - lo) ltac:(lia)). lia.
Qed.

Lemma generate_data_one_row_per_day_witness :
  exists df,
    fst (generate_data Lcg.seed Lcg.randint sin_series 0) = Some df
    /\ length df = 365%nat
    /\ map (fun r => Timestamp_date (Date r)) df = calendar_year 2023.
Proof.
  destruct (generate_data_one_row_per_day
              Lcg.state Lcg.seed Lcg.randint sin_series Lcg_randint_length 0)
    as [df [H1 [H2 [H3 _]]]].
  exists df. split; [exact H1|]. split; [exact H2 | exact H3].
Defined.

Lemma generate_data_sales_formula_witness :
  exists df,
    fst (generate_data Lcg.seed Lcg.randint sin_series 0) = Some df
    /\ exists r d,
         nth_error df 3 = Some r
         /\ nth_error (fst (Lcg.randint 100 1000 365 (Lcg.seed 42))) 3 = Some d
         /\ Sales r
            = (float_of_int d + 100 * sin_series (0.1 * float_of_int 3))%float.
Proof.
  destruct (generate_data_sales_formula
              Lcg.state Lcg.seed Lcg.randint sin_series
              Lcg_randint_length Lcg_randint_range 0)
    as [df [H1 [_ H3]]].
  exists df. split; [exact H1|].
  destruct (H3 3%nat ltac:(lia)) as [r [d [Hr [Hd [_ Hs]]]]].
  exists r, d. split; [exact Hr|]. split; [exact Hd | exact Hs].
Defined.

(** ** The order on dates *)

Lemma date_ltb_iff (a b : date) :
  date_ltb a b = true <->
  year a < year b
  \/ (year a = year b
      /\ (month a < month b \/ (month a = month b /\ day a < day b))).
Proof.
  unfold date_ltb.
  rewrite !orb_true_iff, !andb_true_iff, !orb_true_iff, !andb_true_iff,
    !Z.ltb_lt, !Z.eqb_eq.
  reflexivity.
Qed.

Lemma date_eqb_iff (a b : date) :
  date_eqb a b = true <->
  year a = year b /\ month a = month b /\ day a = day b.
Proof.
  unfold date_eqb. rewrite !andb_true_iff, !Z.eqb_eq. tauto.
Qed.

Lemma date_leb_iff (a b : date) :
  date_leb a b = true <->
  year a < year b
  \/ (year a = year b
      /\ (month a < month b \/ (month a = month b /\ day a <= day b))).
Proof.
  unfold date_leb. rewrite orb_true_iff, date_ltb_iff, date_eqb_iff. lia.
Qed.

Lemma date_leb_refl (a : date) : date_leb a a = true.
Proof. apply date_leb_iff. lia. Qed.

Lemma date_leb_trans (a b c : date) :
  date_leb a b = true -> date_leb b c = true -> date_leb a c = true.
Proof. rewrite !date_leb_iff. lia. Qed.

Lemma date_ltb_trans (a b c : date) :
  date_ltb a b = true -> date_ltb b c = true -> date_ltb a c = true.
Proof. rewrite !date_ltb_iff. lia. Qed.

Lemma date_ltb_leb (a b : date) : date_ltb a b = true -> date_leb a b = true.
Proof. rewrite date_ltb_iff, date_leb_iff. lia. Qed.

(** Nothing lies between [s] and [e] when [e] is before [s]. *)
Lemma date_between_empty (s e d : date) :
  date_ltb e s = true -> date_leb s d && date_leb d e = false.
Proof.
  intros H. apply not_true_is_false. rewrite andb_true_iff, !date_leb_iff.
  apply date_ltb_iff in H. lia.
Qed.

(** ** Days and dates run in the same order *)

Lemma days_to_yearsdays_succ (t : Z) :
  let '(y, d) := days_to_yearsdays t in
  let '(y', d') := days_to_yearsdays (t + 1) in
  0 <= d /\ ((y' = y /\ d' = d + 1) \/ (y' = y + 1 /\ d' = 0)).
Proof.
  unfold days_to_yearsdays.
  change (400 * 365 + 100 - 4 + 1) with 146097.
  change (365 * 30 + 7) with 10957.
  change (100 * 365 + 25 - 1) with 36524.
  change (4 * 365 + 1) with 1461.
  cbv zeta.
  repeat match goal with
  | |- context [?a <=? ?b] => destruct (Z.leb_spec a b)
  end; Z.div_mod_to_equations; lia.
Qed.

Lemma month_of_yearday_lower (lengths : list Z) :
  forall i d, i + 1 <= fst (month_of_yearday lengths i d).
Proof.
  induction lengths as [|len rest IH]; intros i d; simpl; [lia|].
  destruct (d <? len); simpl; [lia|].
  specialize (IH (i + 1) (d - len)). lia.
Qed.

Lemma month_of_yearday_succ (lengths : list Z) :
  forall i d,
    fst (month_of_yearday lengths i d) < fst (month_of_yearday lengths i (d + 1))
    \/ (fst (month_of_yearday lengths i d) = fst (month_of_yearday lengths i (d + 1))
        /\ snd (month_of_yearday lengths i d) < snd (month_of_yearday lengths i (d + 1))).
Proof.
  induction lengths as [|len rest IH]; intros i d; simpl; [lia|].
  destruct (Z.ltb_spec d len), (Z.ltb_spec (d + 1) len); simpl; try lia.
  - pose proof (month_of_yearday_lower rest (i + 1) (d + 1 - len)). lia.
  - replace (d + 1 - len) with (d - len + 1) by lia. apply IH.
Qed.

Lemma Timestamp_date_succ (t : Timestamp) :
  date_ltb (Timestamp_date t) (Timestamp_date (t + 1)) = true.
Proof.
  pose proof (days_to_yearsdays_succ t) as H.
  unfold Timestamp_date.
  destruct (days_to_yearsdays t) as [y d].
  destruct (days_to_yearsdays (t + 1)) as [y' d'].
  destruct H as [_ [[-> ->] | [-> ->]]].
  - pose proof (month_of_yearday_succ
                  (days_per_month_table (is_leapyear y)) 0 d) as H.
    destruct (month_of_yearday _ 0 d) as [m x].
    destruct (month_of_yearday _ 0 (d + 1)) as [m' x'].
    apply date_ltb_iff. simpl in *. lia.
  - destruct (month_of_yearday _ 0 d) as [m x].
    destruct (month_of_yearday _ 0 0) as [m' x'].
    apply date_ltb_iff. simpl. lia.
Qed.

Lemma Timestamp_date_lt (a b : Timestamp) :
  a < b -> date_ltb (Timestamp_date a) (Timestamp_date b) = true.
Proof.
  intros Hab.
  replace b with (a + 1 + Z.of_nat (Z.to_nat (b - a - 1))) by lia.
  induction (Z.to_nat (b - a - 1)) as [|n IH].
  - rewrite Z.add_0_r. apply Timestamp_date_succ.
  - eapply date_ltb_trans; [exact IH|].
    replace (a + 1 + Z.of_nat (S n)) with (a + 1 + Z.of_nat n + 1) by lia.
    apply Timestamp_date_succ.
Qed.

Lemma Timestamp_date_le (a b : Timestamp) :
  a <= b -> date_leb (Timestamp_date a) (Timestamp_date b) = true.
Proof.
  intros Hab. destruct (Z.eq_dec a b) as [->|Hne].
  - apply date_leb_refl.
  - apply date_ltb_leb, Timestamp_date_lt. lia.
Qed.

(** ** Masks *)

Lemma mask_and_map {A : Type} (f g : A -> bool) (l : list A) :
  mask_and (map f l) (map g l) = map (fun x => f x && g x) l.
Proof. induction l as [|x l IH]; simpl; [reflexivity | rewrite IH; reflexivity]. Qed.

Section FilterFacts.

Context {F : Type}.

Lemma select_rows_map (p : Row F -> bool) (df : DataFrame F) :
  select_rows df (map p df) = filter p df.
Proof.
  induction df as [|r df IH]; simpl; [reflexivity|].
  rewrite IH. reflexivity.
Qed.

Lemma getitem_mask_map (p : Row F -> bool) (df : DataFrame F) :
  getitem_mask df (map p df) = Some (filter p df).
Proof.
  unfold getitem_mask. rewrite length_map, Nat.eqb_refl, select_rows_map.
  reflexivity.
Qed.

(** The Dashboard filter keeps the rows whose date is between the bounds. *)
Lemma filter_by_date_filter (data : DataFrame F) (start_date end_date : date) :
  filter_by_date data start_date end_date
  = Some (filter (fun r => date_leb start_date (Timestamp_date (Date r))
                           && date_leb (Timestamp_date (Date r)) end_date)
                 data).
Proof.
  unfold filter_by_date, series_ge, series_le, dt_date.
  rewrite !map_map, mask_and_map. apply getitem_mask_map.
Qed.

(** The Data Explorer filter keeps the rows whose category and region are
    both selected. *)
Lemma filter_by_membership_filter (data : DataFrame F)
    (selected_categories selected_regions : list string) :
  filter_by_membership data selected_categories selected_regions
  = Some (filter (fun r => existsb (String.eqb (Category r)) selected_categories
                           && existsb (String.eqb (Region r)) selected_regions)
                 data).
Proof.
  unfold filter_by_membership, isin.
  rewrite !map_map, mask_and_map. apply getitem_mask_map.
Qed.

End FilterFacts.

Lemma existsb_eqb_In (x : string) (l : list string) :
  existsb (String.eqb x) l = true <-> In x l.
Proof.
  rewrite existsb_exists. split.
  - intros [y [Hy He]]. apply String.eqb_eq in He. congruence.
  - intros H. exists x. split; [exact H | apply String.eqb_refl].
Qed.

Lemma filter_none {A : Type} (p : A -> bool) (l : list A) :
  (forall x, In x l -> p x = false) -> filter p l = [].
Proof.
  induction l as [|x l IH]; intros H; simpl; [reflexivity|].
  rewrite (H x (or_introl eq_refl)). apply IH. intros y Hy. apply H. right. exact Hy.
Qed.

Lemma filter_all {A : Type} (p : A -> bool) (l : list A) :
  (forall x, In x l -> p x = true) -> filter p l = l.
Proof.
  induction l as [|x l IH]; intros H; simpl; [reflexivity|].
  rewrite (H x (or_introl eq_refl)). f_equal. apply IH. intros y Hy. apply H. right. exact Hy.
Qed.

(** ** Order of the rows *)

Lemma filter_Subsequence {A : Type} (p : A -> bool) (l : list A) :
  Subsequence (filter p l) l.
Proof.
  induction l as [|x l IH]; simpl; [constructor|].
  destruct (p x); constructor; exact IH.
Qed.

Lemma Subsequence_In {A : Type} (l1 l2 : list A) :
  Subsequence l1 l2 -> forall x, In x l1 -> In x l2.
Proof.
  induction 1 as [|x l1 l2 _ IH|x l1 l2 _ IH]; intros y Hy; simpl in *; intuition.
Qed.

Lemma Subsequence_map {A B : Type} (f : A -> B) (l1 l2 : list A) :
  Subsequence l1 l2 -> Subsequence (map f l1) (map f l2).
Proof. induction 1; simpl; constructor; assumption. Qed.

Lemma Subsequence_sorted {A : Type} (R : A -> A -> Prop) (l1 l2 : list A) :
  Subsequence l1 l2 -> StronglySorted R l2 -> StronglySorted R l1.
Proof.
  induction 1 as [|x l1 l2 Hs IH|x l1 l2 Hs IH]; intros Hsorted.
  - constructor.
  - inversion Hsorted; subst. auto.
  - inversion Hsorted as [|? ? Hrest Hall]; subst. constructor; [auto|].
    rewrite Forall_forall in *. intros y Hy. apply Hall.
    eapply Subsequence_In; eassumption.
Qed.

(** ** Smallest and largest timestamp, distinct values *)

Lemma fold_left_min_le (l : list Z) :
  forall a, fold_left Z.min l a <= a
            /\ forall x, In x l -> fold_left Z.min l a <= x.
Proof.
  induction l as [|y l IH]; intros a; simpl.
  - split; [lia | contradiction].
  - destruct (IH (Z.min a y)) as [H1 H2]. split; [lia|].
    intros x [->|Hx]; [lia | auto].
Qed.

Lemma fold_left_max_ge (l : list Z) :
  forall a, a <= fold_left Z.max l a
            /\ forall x, In x l -> x <= fold_left Z.max l a.
Proof.
  induction l as [|y l IH]; intros a; simpl.
  - split; [lia | contradiction].
  - destruct (IH (Z.max a y)) as [H1 H2]. split; [lia|].
    intros x [->|Hx]; [lia | auto].
Qed.

Lemma Series_min_le (col : list Timestamp) (m : Timestamp) :
  Series_min col = Some m -> forall t, In t col -> m <= t.
Proof.
  destruct col as [|a rest]; [discriminate|].
  simpl. intros [= <-] t [<-|Ht].
  - apply (proj1 (fold_left_min_le rest a)).
  - apply (proj2 (fold_left_min_le rest a)). exact Ht.
Qed.

Lemma Series_max_ge (col : list Timestamp) (m : Timestamp) :
  Series_max col = Some m -> forall t, In t col -> t <= m.
Proof.
  destruct col as [|a rest]; [discriminate|].
  simpl. intros [= <-] t [<-|Ht].
  - apply (proj1 (fold_left_max_ge rest a)).
  - apply (proj2 (fold_left_max_ge rest a)). exact Ht.
Qed.

Lemma unique_from_covers (col : list string) :
  forall seen x, In x col -> In x seen \/ In x (unique_from seen col).
Proof.
  induction col as [|y col IH]; intros seen x Hx; [contradiction|].
  simpl. destruct (existsb (String.eqb y) seen) eqn:Hy.
  - destruct Hx as [->|Hx]; [left; apply existsb_eqb_In; exact Hy | auto].
  - destruct Hx as [->|Hx]; [right; left; reflexivity|].
    destruct (IH (y :: seen) x Hx) as [[->|H]|H]; simpl; auto.
Qed.

Lemma unique_covers (col : list string) (x : string) :
  In x col -> In x (unique col).
Proof.
  intros Hx. destruct (unique_from_covers col [] x Hx) as [[]|H]. exact H.
Qed.

(** ** The filters *)

(** C3: the date-range filter raises nothing and returns exactly the rows
    whose date [d] satisfies [start_date <= d <= end_date], both bounds
    included, in frame order; when [start_date] is after [end_date] the
    result is empty. *)
Theorem filter_by_date_inclusive {F : Type} (data : DataFrame F)
    (start_date end_date : date) :
  exists out,
    filter_by_date data start_date end_date = Some out
    /\ out = filter (fun r => date_leb start_date (Timestamp_date (Date r))
                              && date_leb (Timestamp_date (Date r)) end_date)
                    data
    /\ (forall r,
          In r out <->
          In r data
          /\ date_leb start_date (Timestamp_date (Date r)) = true
          /\ date_leb (Timestamp_date (Date r)) end_date = true)
    /\ (date_ltb end_date start_date = true -> out = []).
Proof.
  eexists. split; [apply filter_by_date_filter|]. split; [reflexivity|]. split.
  - intros r. rewrite filter_In, andb_true_iff. reflexivity.
  - intros Hgt. apply filter_none. intros r _.
    apply date_between_empty. exact Hgt.
Qed.

(** C6: the membership filter raises nothing and returns exactly the rows
    whose category is among the selected categories and whose region is
    among the selected regions, in frame order; when either selection is
    empty the result is empty. *)
Theorem filter_by_membership_both {F : Type} (data : DataFrame F)
    (selected_categories selected_regions : list string) :
  exists out,
    filter_by_membership data selected_categories selected_regions = Some out
    /\ out = filter (fun r => existsb (String.eqb (Category r)) selected_categories
                              && existsb (String.eqb (Region r)) selected_regions)
                    data
    /\ (forall r,
          In r out <->
          In r data
          /\ In (Category r) selected_categories
          /\ In (Region r) selected_regions)
    /\ (selected_categories = [] \/ selected_regions = [] -> out = []).
Proof.
  eexists. split; [apply filter_by_membership_filter|]. split; [reflexivity|].
  split.
  - intros r. rewrite filter_In, andb_true_iff, !existsb_eqb_In. reflexivity.
  - intros [-> | ->]; apply filter_none; intros r _; simpl;
      [reflexivity | apply andb_false_r].
Qed.

(** C8: each filter returns a subsequence of the frame, rows in their
    original order; if the dates of the frame are strictly ascending, so
    are the dates of the filtered frame. *)
Theorem filters_preserve_order {F : Type} (data : DataFrame F)
    (start_date end_date : date)
    (selected_categories selected_regions : list string) :
  (exists out,
     filter_by_date data start_date end_date = Some out
     /\ Subsequence out data
     /\ (StronglySorted Z.lt (map Date data) ->
         StronglySorted Z.lt (map Date out)))
  /\ (exists out,
        filter_by_membership data selected_categories selected_regions = Some out
        /\ Subsequence out data
        /\ (StronglySorted Z.lt (map Date data) ->
            StronglySorted Z.lt (map Date out))).
Proof.
  split; eexists;
    (split; [first [apply filter_by_date_filter | apply filter_by_membership_filter]|]);
    (split; [apply filter_Subsequence|]);
    intros Hs; (eapply Subsequence_sorted; [|exact Hs]);
    apply Subsequence_map, filter_Subsequence.
Qed.

(** C9: with the default bounds, the smallest and the largest date of the
    frame, the date-range filter returns the frame unchanged (a frame with
    no rows has no such bounds); with every distinct category and every
    distinct region of the frame selected, the membership filter returns
    the frame unchanged. *)
Theorem filters_identity_on_defaults {F : Type} (data : DataFrame F) :
  match default_start_date data, default_end_date data with
  | Some start_date, Some end_date =>
      filter_by_date data start_date end_date = Some data
  | _, _ => data = []
  end
  /\ filter_by_membership data (unique (map Category data))
                               (unique (map Region data))
     = Some data.
Proof.
  split.
  - unfold default_start_date, default_end_date.
    destruct (Series_min (map Date data)) as [lo|] eqn:Hlo;
      [|destruct data; [reflexivity | discriminate]].
    destruct (Series_max (map Date data)) as [hi|] eqn:Hhi;
      [|destruct data; [reflexivity | discriminate]].
    simpl. rewrite filter_by_date_filter. f_equal. apply filter_all.
    intros r Hr. apply (in_map Date) in Hr.
    rewrite andb_true_iff. split; apply Timestamp_date_le.
    + eapply Series_min_le; eassumption.
    + eapply Series_max_ge; eassumption.
  - rewrite filter_by_membership_filter. f_equal. apply filter_all.
    intros r Hr. rewrite andb_true_iff, !existsb_eqb_In.
    split; apply unique_covers.
    + apply (in_map Category). exact Hr.
    + apply (in_map Region). exact Hr.
Qed.

(** ** Sums *)

Section ExactSums.

Context {F : Type}.
Variable zero : F.
Variable add : F -> F -> F.

(** Exact arithmetic: addition is associative and commutative, and 0 is
    neutral. *)
Hypothesis add_assoc : forall a b c, add a (add b c) = add (add a b) c.
Hypothesis add_comm : forall a b, add a b = add b a.
Hypothesis add_zero_l : forall a, add zero a = a.

Lemma fold_left_add_acc (l : list F) :
  forall a, fold_left add l a = add a (fold_left add l zero).
Proof.
  induction l as [|x l IH]; intros a; simpl.
  - rewrite add_comm, add_zero_l. reflexivity.
  - rewrite (IH (add a x)), (IH (add zero x)), add_zero_l, add_assoc.
    reflexivity.
Qed.

Lemma Series_sum_cons (x : F) (l : list F) :
  Series_sum zero add (x :: l) = add x (Series_sum zero add l).
Proof.
  unfold Series_sum. simpl. rewrite fold_left_add_acc, add_zero_l. reflexivity.
Qed.

Lemma Series_sum_nil : Series_sum zero add [] = zero.
Proof. reflexivity. Qed.

Lemma add_zero_r (a : F) : add a zero = a.
Proof. rewrite add_comm. apply add_zero_l. Qed.

Lemma sum_of_groups_group_add (k : string) (v : F) (groups : list (string * F)) :
  sum_of_groups zero add (group_add zero add k v groups)
  = add (sum_of_groups zero add groups) v.
Proof.
  unfold sum_of_groups.
  induction groups as [|[k' acc] rest IH]; cbn [group_add].
  - cbn [map snd]. rewrite Series_sum_cons, !Series_sum_nil, !add_zero_l.
    apply add_zero_r.
  - destruct (String.compare k k'); cbn [map snd]; rewrite !Series_sum_cons.
    + rewrite <- !add_assoc. f_equal. apply add_comm.
    + rewrite add_zero_l. apply add_comm.
    + rewrite IH, add_assoc. reflexivity.
Qed.

Lemma sum_of_groups_fold (key : Row F -> string) (df : DataFrame F) :
  forall groups,
    sum_of_groups zero add
      (fold_left (fun g r => group_add zero add (key r) (Sales r) g) df groups)
    = add (sum_of_groups zero add groups) (Series_sum zero add (map Sales df)).
Proof.
  induction df as [|r df IH]; intros groups; cbn [fold_left map].
  - rewrite Series_sum_nil, add_zero_r. reflexivity.
  - rewrite IH, sum_of_groups_group_add, Series_sum_cons, add_assoc.
    reflexivity.
Qed.

(** C4, as amended: in exact arithmetic the grouped sums add up to the
    total, for any grouping key and any frame. *)
Theorem grouped_sums_add_up (key : Row F -> string) (df : DataFrame F) :
  sum_of_groups zero add (groupby_sum zero add key df) = total_sales zero add df.
Proof.
  unfold groupby_sum, total_sales. rewrite sum_of_groups_fold.
  unfold sum_of_groups. cbn [map]. rewrite Series_sum_nil. apply add_zero_l.
Qed.

End ExactSums.

Lemma grouped_sums_add_up_witness :
  sum_of_groups 0 Z.add
    (groupby_sum 0 Z.add Category
       [mkRow 19358 120 "Books" "North"; mkRow 19359 340 "Food" "East";
        mkRow 19360 75 "Books" "West"]%string)
  = total_sales 0 Z.add
      [mkRow 19358 120 "Books" "North"; mkRow 19359 340 "Food" "East";
       mkRow 19360 75 "Books" "West"]%string.
Proof.
  apply (grouped_sums_add_up 0 Z.add Z.add_assoc Z.add_comm Z.add_0_l).
Defined.

(** C4, as stated, fails on binary64: three rows in two categories whose
    grouped sums add up to 303.8 while the total is 303.79999999999995. *)
Lemma grouped_sums_differ_binary64 :
  let df := [mkRow 19358 100.1%float "Books" "North";
             mkRow 19359 100.8%float "Food" "North";
             mkRow 19360 102.9%float "Books" "North"]%string in
  groupby_sum 0%float PrimFloat.add Category df
  = [("Books", 203.0%float); ("Food", 100.8%float)]%string
  /\ sum_of_groups 0%float PrimFloat.add
       (groupby_sum 0%float PrimFloat.add Category df) = 303.8%float
  /\ total_sales 0%float PrimFloat.add df = 303.79999999999995%float
  /\ PrimFloat.eqb
       (sum_of_groups 0%float PrimFloat.add
          (groupby_sum 0%float PrimFloat.add Category df))
       (total_sales 0%float PrimFloat.add df) = false.
Proof. vm_compute. repeat split. Qed.


(** ** Digits and their text *)

Arguments digit_char : simpl never.
Arguments is_digit : simpl never.
Arguments is_special : simpl never.

Lemma digit_char_ok (d : Z) :
  0 <= d < 10 ->
  is_digit (digit_char d) = true /\ is_special (digit_char d) = false.
Proof.
  intros H.
  assert (E : d = 0 \/ d = 1 \/ d = 2 \/ d = 3 \/ d = 4 \/ d = 5 \/ d = 6
              \/ d = 7 \/ d = 8 \/ d = 9) by lia.
  repeat (destruct E as [-> | E]; [split; reflexivity|]).
  subst d. split; reflexivity.
Qed.

Lemma Z_digits_aux_digits (fuel : nat) :
  forall n acc,
    Forall (fun d => 0 <= d < 10) acc ->
    Forall (fun d => 0 <= d < 10) (Z_digits_aux fuel n acc).
Proof.
  induction fuel as [|fuel IH]; intros n acc Hacc; simpl; [exact Hacc|].
  assert (Hacc' : Forall (fun d => 0 <= d < 10) (n mod 10 :: acc)).
  { constructor; [apply Z.mod_pos_bound; lia | exact Hacc]. }
  destruct (n / 10 =? 0); [exact Hacc' | apply IH; exact Hacc'].
Qed.

Lemma Z_digits_aux_nonempty (fuel : nat) :
  forall n acc, acc <> [] -> Z_digits_aux fuel n acc <> [].
Proof.
  induction fuel as [|fuel IH]; intros n acc Hacc; simpl; [exact Hacc|].
  destruct (n / 10 =? 0); [discriminate | apply IH; discriminate].
Qed.

Lemma Z_digits_digits (n : Z) : Forall (fun d => 0 <= d < 10) (Z_digits n).
Proof. apply Z_digits_aux_digits. constructor. Qed.

Lemma Z_digits_nonempty (n : Z) : Z_digits n <> [].
Proof.
  unfold Z_digits. simpl.
  destruct (n / 10 =? 0); [discriminate | apply Z_digits_aux_nonempty; discriminate].
Qed.

Lemma strip_trailing_zeros_rev_nonempty (l : list Z) :
  l <> [] -> strip_trailing_zeros_rev l <> [].
Proof.
  induction l as [|d l IH]; intros H; [contradiction|].
  simpl. destruct d; try discriminate.
  destruct l; [discriminate | apply IH; discriminate].
Qed.

Lemma strip_trailing_zeros_rev_digits (l : list Z) :
  Forall (fun d => 0 <= d < 10) l ->
  Forall (fun d => 0 <= d < 10) (strip_trailing_zeros_rev l).
Proof.
  induction 1 as [|d l Hd Hl IH]; simpl; [constructor|].
  destruct d; try (constructor; assumption).
  destruct l; [constructor; assumption | exact IH].
Qed.

Lemma shortest_digits_ok (m e : Z) :
  fst (shortest_digits m e) <> []
  /\ Forall (fun d => 0 <= d < 10) (fst (shortest_digits m e)).
Proof.
  unfold shortest_digits.
  destruct (shortest_from 17 m e (decpt_of m e) 1) as [q j]. simpl. split.
  - intros H. apply (f_equal (@rev Z)) in H. rewrite rev_involutive in H.
    revert H. apply strip_trailing_zeros_rev_nonempty.
    intros H. apply (f_equal (@rev Z)) in H. rewrite rev_involutive in H.
    revert H. apply Z_digits_nonempty.
  - apply Forall_rev, strip_trailing_zeros_rev_digits, Forall_rev, Z_digits_digits.
Qed.

Lemma zeros_digits (n : Z) : Forall (fun d => 0 <= d < 10) (zeros n).
Proof. unfold zeros. apply Forall_forall. intros d Hd. apply repeat_spec in Hd. lia. Qed.

Lemma digits_string_app (a b : list Z) :
  digits_string (a ++ b) = (digits_string a ++ digits_string b)%string.
Proof.
  unfold digits_string. rewrite map_app.
  induction (map digit_char a) as [|c l IH]; simpl; [reflexivity|].
  rewrite IH. reflexivity.
Qed.

Lemma digits_string_all_digits (ds : list Z) :
  Forall (fun d => 0 <= d < 10) ds -> all_digits (digits_string ds) = true.
Proof.
  induction 1 as [|d ds Hd _ IH]; [reflexivity|].
  unfold digits_string in *. cbn [map string_of_list_ascii all_digits].
  rewrite (proj1 (digit_char_ok d Hd)), IH. reflexivity.
Qed.

Lemma digits_string_length (ds : list Z) :
  String.length (digits_string ds) = length ds.
Proof.
  unfold digits_string. induction ds as [|d ds IH]; [reflexivity|].
  cbn [map string_of_list_ascii String.length length]. rewrite IH. reflexivity.
Qed.

(** Digits, a point, digits: a plain decimal. *)
Lemma plain_after_int_point (a b : list Z) :
  b <> [] ->
  Forall (fun d => 0 <= d < 10) a -> Forall (fun d => 0 <= d < 10) b ->
  plain_after_int (digits_string a ++ "." ++ digits_string b)%string = true.
Proof.
  intros Hb Hda Hdb.
  induction Hda as [|d l Hd _ IH].
  - change (digits_string [] ++ "." ++ digits_string b)%string
      with (String "." (digits_string b)).
    cbn [plain_after_int]. rewrite Ascii.eqb_refl.
    rewrite (digits_string_all_digits b Hdb).
    destruct b as [|d b]; [contradiction|]. reflexivity.
  - change (digits_string (d :: l) ++ "." ++ digits_string b)%string
      with (String (digit_char d) (digits_string l ++ "." ++ digits_string b)).
    cbn [plain_after_int].
    destruct (digit_char_ok d Hd) as [Hdig _].
    destruct (Ascii.eqb_spec (digit_char d) "."%char) as [E|_].
    + rewrite E in Hdig. discriminate.
    + rewrite Hdig. exact IH.
Qed.

Lemma plain_unsigned_point (a b : list Z) :
  a <> [] -> b <> [] ->
  Forall (fun d => 0 <= d < 10) a -> Forall (fun d => 0 <= d < 10) b ->
  plain_unsigned (digits_string a ++ "." ++ digits_string b)%string = true.
Proof.
  intros Ha Hb Hda Hdb.
  pose proof (plain_after_int_point a b Hb Hda Hdb) as Hint.
  destruct a as [|d a]; [contradiction|].
  change (digits_string (d :: a) ++ "." ++ digits_string b)%string
    with (String (digit_char d) (digits_string a ++ "." ++ digits_string b))
    in Hint |- *.
  cbn [plain_unsigned].
  inversion Hda as [|? ? Hd _]; subst.
  rewrite (proj1 (digit_char_ok d Hd)). exact Hint.
Qed.

Lemma positional_plain (ds : list Z) (dp : Z) :
  ds <> [] -> Forall (fun d => 0 <= d < 10) ds ->
  plain_unsigned (positional ds dp) = true.
Proof.
  intros Hne Hds. unfold positional.
  destruct (Z.leb_spec dp 0) as [Hdp|Hdp].
  - change ("0." ++ digits_string (zeros (- dp) ++ ds))%string
      with (digits_string [0] ++ "." ++ digits_string (zeros (- dp) ++ ds))%string.
    apply plain_unsigned_point.
    + discriminate.
    + intros H. apply app_eq_nil in H as [_ H]. contradiction.
    + repeat constructor; lia.
    + apply Forall_app. split; [apply zeros_digits | exact Hds].
  - destruct (Z.leb_spec (Z.of_nat (length ds)) dp) as [Hn|Hn].
    + change (digits_string (ds ++ zeros (dp - Z.of_nat (length ds))) ++ ".0")%string
        with (digits_string (ds ++ zeros (dp - Z.of_nat (length ds)))
              ++ "." ++ digits_string [0])%string.
      apply plain_unsigned_point.
      * intros H. apply app_eq_nil in H as [H _]. contradiction.
      * discriminate.
      * apply Forall_app. split; [exact Hds | apply zeros_digits].
      * repeat constructor; lia.
    + rewrite <- (firstn_skipn (Z.to_nat dp) ds) in Hds.
      apply Forall_app in Hds as [Hf Hs].
      apply plain_unsigned_point; try assumption.
      * intros H. apply (f_equal (@length Z)) in H.
        rewrite length_firstn in H. simpl in H.
        destruct ds; [contradiction | simpl in H; lia].
      * intros H. apply (f_equal (@length Z)) in H.
        rewrite length_skipn in H. simpl in H. lia.
Qed.

Lemma plain_decimal_unsigned (s : string) :
  plain_unsigned s = true -> plain_decimal s = true.
Proof.
  destruct s as [|[[] [] [] [] [] [] [] []] s]; simpl; intros H;
    first [exact H | discriminate H].
Qed.

Lemma positional_range_finite (x : float) :
  positional_range x = true ->
  match Prim2SF x with
  | S754_nan | S754_infinity _ => False
  | _ => True
  end.
Proof.
  unfold positional_range. cbv zeta.
  rewrite eqb_spec, ltb_spec, leb_spec, abs_spec.
  destruct (Prim2SF x) as [s|s| |s m e]; try exact (fun _ => I).
  - destruct s; vm_compute; discriminate.
  - vm_compute. discriminate.
Qed.

(** In the positional range, a float is printed as a plain decimal. *)
Lemma float64_str_plain (x : float) :
  positional_range x = true -> plain_decimal (float64_str x) = true.
Proof.
  intros H. pose proof (positional_range_finite x H) as Hf.
  unfold float64_str. rewrite H.
  destruct (Prim2SF x) as [s|s| |s m e]; try contradiction.
  - destruct s; reflexivity.
  - pose proof (shortest_digits_ok (Zpos m) e) as [Hne Hds].
    destruct (shortest_digits (Zpos m) e) as [ds dp]. cbn [fst] in Hne, Hds.
    pose proof (positional_plain ds dp Hne Hds) as Hp.
    destruct s; [exact Hp | apply plain_decimal_unsigned; exact Hp].
Qed.

Lemma float64_field_plain (x : float) :
  positional_range x = true -> plain_decimal (float64_field x) = true.
Proof.
  intros H. pose proof (float64_str_plain x H) as Hs.
  pose proof (positional_range_finite x H) as Hf.
  unfold float64_field. destruct (Prim2SF x); try exact Hs. contradiction.
Qed.

(** ** Fields that need no quoting *)

Lemma needs_quote_app (a b : string) :
  needs_quote (a ++ b) = needs_quote a || needs_quote b.
Proof.
  induction a as [|c a IH]; [reflexivity|].
  cbn [append needs_quote]. rewrite IH, orb_assoc. reflexivity.
Qed.

Lemma digits_string_no_quote (ds : list Z) :
  Forall (fun d => 0 <= d < 10) ds -> needs_quote (digits_string ds) = false.
Proof.
  induction 1 as [|d ds Hd _ IH]; [reflexivity|].
  unfold digits_string in *. cbn [map string_of_list_ascii needs_quote].
  rewrite (proj2 (digit_char_ok d Hd)), IH. reflexivity.
Qed.

Lemma str_nonneg_no_quote (n : Z) : needs_quote (str_nonneg n) = false.
Proof. apply digits_string_no_quote, Z_digits_digits. Qed.

Lemma str_02d_no_quote (n : Z) : needs_quote (str_02d n) = false.
Proof.
  unfold str_02d. destruct (n <? 10); [|apply str_nonneg_no_quote].
  cbn [needs_quote]. rewrite str_nonneg_no_quote. reflexivity.
Qed.

Lemma positional_no_quote (ds : list Z) (dp : Z) :
  Forall (fun d => 0 <= d < 10) ds -> needs_quote (positional ds dp) = false.
Proof.
  intros Hds. unfold positional.
  destruct (dp <=? 0); [|destruct (Z.of_nat (length ds) <=? dp)].
  - rewrite needs_quote_app, digits_string_no_quote; [reflexivity|].
    apply Forall_app. split; [apply zeros_digits | exact Hds].
  - rewrite needs_quote_app, digits_string_no_quote; [reflexivity|].
    apply Forall_app. split; [exact Hds | apply zeros_digits].
  - rewrite <- (firstn_skipn (Z.to_nat dp) ds) in Hds.
    apply Forall_app in Hds as [Hf Hs].
    rewrite !needs_quote_app, !digits_string_no_quote by assumption.
    reflexivity.
Qed.

Lemma scientific_no_quote (ds : list Z) (dp : Z) :
  Forall (fun d => 0 <= d < 10) ds -> needs_quote (scientific ds dp) = false.
Proof.
  intros Hds. unfold scientific. cbv zeta.
  rewrite !needs_quote_app, str_02d_no_quote.
  assert (Hm : needs_quote
                 match ds with
                 | [] => "0"%string
                 | [d] => digits_string [d]
                 | d :: (_ :: _) as rest =>
                     (digits_string [d] ++ "." ++ digits_string rest)%string
                 end = false).
  { destruct ds as [|d [|d' rest]]; [reflexivity| |].
    - apply digits_string_no_quote. exact Hds.
    - inversion Hds as [|? ? Hd Hrest]; subst.
      rewrite !needs_quote_app, !digits_string_no_quote;
        [reflexivity | exact Hrest | repeat constructor; lia]. }
  rewrite Hm. destruct (dp - 1 <? 0); reflexivity.
Qed.

Lemma float64_field_no_quote (x : float) : needs_quote (float64_field x) = false.
Proof.
  unfold float64_field, float64_str.
  destruct (Prim2SF x) as [s|s| |s m e]; try (destruct s; reflexivity);
    try reflexivity.
  pose proof (shortest_digits_ok (Zpos m) e) as [_ Hds].
  destruct (shortest_digits (Zpos m) e) as [ds dp]. cbn [fst] in Hds.
  assert (Hb : needs_quote
                 (if positional_range x then positional ds dp
                  else scientific ds dp) = false).
  { destruct (positional_range x);
      [apply positional_no_quote | apply scientific_no_quote]; exact Hds. }
  destruct s; [|exact Hb]. cbn [needs_quote]. rewrite Hb. reflexivity.
Qed.

Lemma format_date_no_quote (t : Timestamp) : needs_quote (format_date t) = false.
Proof.
  unfold format_date. cbv zeta.
  rewrite !needs_quote_app, str_nonneg_no_quote, !str_02d_no_quote.
  reflexivity.
Qed.

Lemma category_names_no_quote (c : string) :
  In c category_names -> needs_quote c = false.
Proof.
  unfold category_names. simpl.
  intros H. repeat (destruct H as [<- | H]; [reflexivity|]). contradiction.
Qed.

Lemma region_names_no_quote (c : string) :
  In c region_names -> needs_quote c = false.
Proof.
  unfold region_names. simpl.
  intros H. repeat (destruct H as [<- | H]; [reflexivity|]). contradiction.
Qed.

Lemma csv_field_plain (s : string) : needs_quote s = false -> csv_field s = s.
Proof. intros H. unfold csv_field. rewrite H. reflexivity. Qed.

(** ** Every timestamp is a calendar date *)

Lemma days_to_yearsdays_bound (t : Z) :
  let '(y, d) := days_to_yearsdays t in
  0 <= d < (if is_leapyear y then 366 else 365).
Proof.
  unfold days_to_yearsdays, is_leapyear.
  change (400 * 365 + 100 - 4 + 1) with 146097.
  change (365 * 30 + 7) with 10957.
  change (100 * 365 + 25 - 1) with 36524.
  change (4 * 365 + 1) with 1461.
  cbv zeta.
  repeat match goal with
  | |- context [?a <=? ?b] => destruct (Z.leb_spec a b)
  end;
  repeat match goal with
  | |- context [?a =? ?b] => destruct (Z.eqb_spec a b)
  end; cbn [andb orb negb]; Z.div_mod_to_equations; lia.
Qed.

Lemma month_of_yearday_bounds (lengths : list Z) :
  forall i d,
    0 <= d < fold_right Z.add 0 lengths ->
    i + 1 <= fst (month_of_yearday lengths i d) <= i + Z.of_nat (length lengths)
    /\ 1 <= snd (month_of_yearday lengths i d)
         <= nth (Z.to_nat (fst (month_of_yearday lengths i d) - i - 1)) lengths 0.
Proof.
  induction lengths as [|len rest IH]; intros i d Hd; [simpl in Hd; lia|].
  cbn [month_of_yearday fold_right length] in *.
  destruct (Z.ltb_spec d len) as [Hlt|Hge].
  - cbn [fst snd]. replace (i + 1 - i - 1) with 0 by lia. simpl. lia.
  - destruct (IH (i + 1) (d - len) ltac:(lia)) as [Hm Hx].
    set (m := fst (month_of_yearday rest (i + 1) (d - len))) in *.
    split; [lia|].
    replace (Z.to_nat (m - i - 1)) with (S (Z.to_nat (m - (i + 1) - 1))) by lia.
    exact Hx.
Qed.

Lemma Timestamp_date_valid (t : Timestamp) : valid_date (Timestamp_date t) = true.
Proof.
  pose proof (days_to_yearsdays_bound t) as Hb.
  unfold Timestamp_date. destruct (days_to_yearsdays t) as [y d].
  pose proof (month_of_yearday_bounds (days_per_month_table (is_leapyear y)) 0 d)
    as Hm.
  assert (Hd : 0 <= d < fold_right Z.add 0 (days_per_month_table (is_leapyear y)))
    by (destruct (is_leapyear y); simpl; lia).
  specialize (Hm Hd).
  assert (Hlen : Z.of_nat (length (days_per_month_table (is_leapyear y))) = 12)
    by (destruct (is_leapyear y); reflexivity).
  rewrite Hlen in Hm.
  destruct (month_of_yearday (days_per_month_table (is_leapyear y)) 0 d) as [m x].
  cbn [fst snd] in Hm.
  unfold valid_date, days_in_month. cbn [year month day].
  replace (m - 0 - 1) with (m - 1) in Hm by lia.
  rewrite !andb_true_iff, !Z.leb_le. lia.
Qed.

Lemma days_in_month_le_31 (y m : Z) : days_in_month y m <= 31.
Proof.
  unfold days_in_month. generalize (Z.to_nat (m - 1)) as n. intros n.
  destruct (is_leapyear y); cbn [days_per_month_table];
    do 12 (destruct n as [|n]; [cbn [nth]; lia|]);
    destruct n; cbn [nth]; lia.
Qed.

(** ** The text of a date *)

Lemma range_forallb (P : Z -> bool) (a : Z) (n : nat) :
  forallb P (map (fun k => a + Z.of_nat k) (seq 0 n)) = true ->
  forall z, a <= z < a + Z.of_nat n -> P z = true.
Proof.
  intros H z Hz. rewrite forallb_forall in H. apply H.
  apply in_map_iff. exists (Z.to_nat (z - a)). split; [lia|].
  apply in_seq. lia.
Qed.

Lemma str_nonneg_year (y : Z) :
  1677 <= y <= 2262 -> digits_shape 4 (str_nonneg y) = true.
Proof.
  intros Hy.
  apply (range_forallb (fun z => digits_shape 4 (str_nonneg z)) 1677 586);
    [vm_compute; reflexivity | lia].
Qed.

Lemma str_02d_two_digits (n : Z) :
  0 <= n <= 99 -> digits_shape 2 (str_02d n) = true.
Proof.
  intros Hn.
  apply (range_forallb (fun z => digits_shape 2 (str_02d z)) 0 100);
    [vm_compute; reflexivity | lia].
Qed.

Lemma iso_date_shape_parts (y m d : string) :
  digits_shape 4 y = true -> digits_shape 2 m = true -> digits_shape 2 d = true ->
  iso_date_shape (y ++ "-" ++ m ++ "-" ++ d) = true.
Proof.
  unfold digits_shape. rewrite !andb_true_iff.
  intros [Ly Dy] [Lm Dm] [Ld Dd].
  destruct y as [|y1 [|y2 [|y3 [|y4 [|]]]]]; try discriminate.
  destruct m as [|m1 [|m2 [|]]]; try discriminate.
  destruct d as [|d1 [|d2 [|]]]; try discriminate.
  cbn [all_digits] in Dy, Dm, Dd.
  repeat match goal with
  | H : _ && _ = true |- _ => apply andb_prop in H as [? ?]
  end.
  unfold iso_date_shape. cbn [append list_ascii_of_string].
  repeat match goal with
  | H : is_digit _ = true |- _ => rewrite H; clear H
  end.
  reflexivity.
Qed.

Lemma Timestamp_date_year_range (t : Timestamp) :
  in_Timestamp_range t = true -> 1677 <= year (Timestamp_date t) <= 2262.
Proof.
  unfold in_Timestamp_range. rewrite andb_true_iff, !Z.leb_le. intros [Hlo Hhi].
  pose proof (Timestamp_date_le _ _ Hlo) as H1.
  pose proof (Timestamp_date_le _ _ Hhi) as H2.
  apply date_leb_iff in H1, H2.
  change (Timestamp_date Timestamp_min) with (mkdate 1677 9 22) in H1.
  change (Timestamp_date Timestamp_max) with (mkdate 2262 4 11) in H2.
  simpl in H1, H2. lia.
Qed.

(** A timestamp in range is written as four digits, a dash, two digits, a
    dash, two digits. *)
Lemma format_date_shape (t : Timestamp) :
  in_Timestamp_range t = true -> iso_date_shape (format_date t) = true.
Proof.
  intros Hr. pose proof (Timestamp_date_year_range t Hr) as Hy.
  pose proof (Timestamp_date_valid t) as Hv.
  unfold format_date. cbv zeta.
  set (dt := Timestamp_date t) in *.
  unfold valid_date in Hv. rewrite !andb_true_iff, !Z.leb_le in Hv.
  pose proof (days_in_month_le_31 (year dt) (month dt)).
  apply iso_date_shape_parts.
  - apply str_nonneg_year. exact Hy.
  - apply str_02d_two_digits. lia.
  - apply str_02d_two_digits. lia.
Qed.

(** ** to_csv *)

Lemma string_append_assoc (a b c : string) :
  ((a ++ b) ++ c = a ++ (b ++ c))%string.
Proof. induction a as [|x a IH]; simpl; [reflexivity | rewrite IH; reflexivity]. Qed.

(** A row whose fields need no quoting is written as its four fields with
    commas between them. *)
Lemma writerow_row (r : Row float) :
  In (Category r) category_names -> In (Region r) region_names ->
  writerow (row_fields float64_field r)
  = (format_date (Date r) ++ "," ++ float64_field (Sales r) ++ ","
       ++ Category r ++ "," ++ Region r ++ lineterminator)%string.
Proof.
  intros Hc Hr. unfold writerow, row_fields. cbn [map].
  rewrite (csv_field_plain _ (format_date_no_quote (Date r))),
    (csv_field_plain _ (float64_field_no_quote (Sales r))),
    (csv_field_plain _ (category_names_no_quote _ Hc)),
    (csv_field_plain _ (region_names_no_quote _ Hr)).
  cbn [String.concat]. rewrite !string_append_assoc. reflexivity.
Qed.




(** ** More on generate_data *)

Section GeneratorRanges.

Variable rng_state : Type.
Variable seed : Z -> rng_state.
Variable randint : Z -> Z -> nat -> rng_state -> list Z * rng_state.
Variable sin64 : float -> float.

Hypothesis randint_length :
  forall lo hi n s, length (fst (randint lo hi n s)) = n.
Hypothesis randint_range :
  forall lo hi n s, lo < hi ->
    Forall (fun x => lo <= x < hi) (fst (randint lo hi n s)).

(** [choice] returns elements of the list it draws from. *)
Lemma choice_In (a : list string) (n : nat) (s : rng_state) :
  a <> [] -> Forall (fun x => In x a) (fst (choice randint a n s)).
Proof.
  intros Ha. unfold choice.
  assert (Hlen : 0 < Z.of_nat (length a)) by (destruct a; [contradiction | simpl; lia]).
  pose proof (randint_range 0 (Z.of_nat (length a)) n s Hlen) as Hr.
  destruct (randint 0 (Z.of_nat (length a)) n s) as [idx s']. cbn [fst] in *.
  apply Forall_forall. intros x Hx. apply in_map_iff in Hx as [i [<- Hi]].
  rewrite Forall_forall in Hr. specialize (Hr i Hi).
  apply nth_In. lia.
Qed.

Lemma zip_rows_Forall_names {F : Type} (P Q : string -> Prop)
    (ds : list Timestamp) :
  forall (ss : list F) (cs rs : list string),
    Forall P cs -> Forall Q rs ->
    Forall (fun r => P (Category r) /\ Q (Region r)) (zip_rows ds ss cs rs).
Proof.
  induction ds as [|d ds IH]; intros ss cs rs Hc Hr; [constructor|].
  destruct ss, cs, rs; try constructor.
  - inversion Hc; inversion Hr; subst. split; assumption.
  - inversion Hc; inversion Hr; subst. apply IH; assumption.
Qed.

(** X7: every row of the generated frame has its category among the five
    category names and its region among the five region names. *)
Theorem generate_data_names (s0 : rng_state) :
  exists df,
    fst (generate_data seed randint sin64 s0) = Some df
    /\ Forall (fun r => In (Category r) category_names
                        /\ In (Region r) region_names) df.
Proof.
  unfold generate_data. rewrite date_range_2023, dates_2023_length.
  pose proof (randint_length 100 1000 365 (seed 42)) as Hl.
  destruct (randint 100 1000 365 (seed 42)) as [zs s2]. cbn [fst] in Hl.
  fold (wave_2023 sin64).
  rewrite np_add_same_length
    by (rewrite astype_float_length, wave_length; exact Hl).
  pose proof (choice_length rng_state randint randint_length category_names 365 s2) as Hc.
  pose proof (choice_In category_names 365 s2 ltac:(discriminate)) as Hcin.
  destruct (choice randint category_names 365 s2) as [cs s3].
  pose proof (choice_length rng_state randint randint_length region_names 365 s3) as Hg.
  pose proof (choice_In region_names 365 s3 ltac:(discriminate)) as Hgin.
  destruct (choice randint region_names 365 s3) as [rs s4].
  cbn [fst] in *.
  eexists. split.
  - apply mkDataFrame_ok.
    + rewrite add_elementwise_length;
        rewrite ?astype_float_length, ?wave_length; auto.
    + rewrite Hc. reflexivity.
    + rewrite Hg. reflexivity.
  - apply (zip_rows_Forall_names (fun c => In c category_names)
                                   (fun c => In c region_names));
      assumption.
Qed.

End GeneratorRanges.

Lemma generate_data_names_witness :
  exists df,
    fst (generate_data Lcg.seed Lcg.randint sin_series 0) = Some df
    /\ Forall (fun r => In (Category r) category_names
                        /\ In (Region r) region_names) df.
Proof.
  exact (generate_data_names Lcg.state Lcg.seed Lcg.randint sin_series
           Lcg_randint_length Lcg_randint_range 0).
Defined.

(** ** The order on keys *)

Lemma ascii_compare_refl (a : ascii) : Ascii.compare a a = Eq.
Proof. unfold Ascii.compare. apply N.compare_refl. Qed.

Lemma string_compare_refl (s : string) : String.compare s s = Eq.
Proof.
  induction s as [|a s IH]; [reflexivity|].
  cbn [String.compare]. rewrite ascii_compare_refl. exact IH.
Qed.

Lemma string_compare_lt_trans (a : string) :
  forall b c,
    String.compare a b = Lt -> String.compare b c = Lt ->
    String.compare a c = Lt.
Proof.
  induction a as [|x a IH]; intros [|y b] [|z c]; cbn [String.compare];
    try discriminate; try reflexivity.
  destruct (Ascii.compare x y) eqn:Hxy; try discriminate;
    destruct (Ascii.compare y z) eqn:Hyz; try discriminate; intros Hab Hbc.
  - apply Ascii.compare_eq_iff in Hxy, Hyz. subst.
    rewrite ascii_compare_refl. eapply IH; eassumption.
  - apply Ascii.compare_eq_iff in Hxy. subst. rewrite Hyz. reflexivity.
  - apply Ascii.compare_eq_iff in Hyz. subst. rewrite Hxy. reflexivity.
  - unfold Ascii.compare in *. rewrite N.compare_lt_iff in Hxy, Hyz.
    assert (H : N.compare (N_of_ascii x) (N_of_ascii z) = Lt)
      by (apply N.compare_lt_iff; lia).
    rewrite H. reflexivity.
Qed.

Lemma string_compare_gt_lt (a b : string) :
  String.compare a b = Gt -> String.compare b a = Lt.
Proof.
  intros H. rewrite String.compare_antisym, H. reflexivity.
Qed.

Lemma string_compare_lt_neq (a b : string) : String.compare a b = Lt -> a <> b.
Proof. intros H ->. rewrite string_compare_refl in H. discriminate. Qed.

(** ** Grouped sums, key by key *)

Section GroupFacts.

Context {F : Type}.
Variable zero : F.
Variable add : F -> F -> F.
Variable key : Row F -> string.

Lemma group_add_keys (k : string) (v : F) (groups : list (string * F)) :
  forall k', In k' (map fst (group_add zero add k v groups))
             <-> k' = k \/ In k' (map fst groups).
Proof.
  induction groups as [|[k0 acc] rest IH]; intros k'; cbn [group_add].
  - cbn [map fst In]. intuition.
  - destruct (String.compare k k0) eqn:E; cbn [map fst In].
    + apply String.compare_eq_iff in E. subst k0. intuition.
    + intuition.
    + rewrite IH. intuition.
Qed.

Lemma sorted_head_lt (k0 : string) (ks : list string) :
  StronglySorted key_lt (k0 :: ks) ->
  forall x, In x ks -> String.compare k0 x = Lt.
Proof.
  intros H. inversion H as [|? ? _ Hall]; subst.
  rewrite Forall_forall in Hall. exact Hall.
Qed.

Lemma sorted_keys_NoDup (ks : list string) :
  StronglySorted key_lt ks -> NoDup ks.
Proof.
  induction 1 as [|k ks _ IH Hall]; constructor; [|exact IH].
  intros Hin. rewrite Forall_forall in Hall.
  apply (string_compare_lt_neq k k (Hall k Hin)). reflexivity.
Qed.

Lemma group_add_sorted (k : string) (v : F) (groups : list (string * F)) :
  StronglySorted key_lt (map fst groups) ->
  StronglySorted key_lt (map fst (group_add zero add k v groups)).
Proof.
  induction groups as [|[k0 acc] rest IH]; intros Hs; cbn [group_add].
  - repeat constructor.
  - cbn [map fst] in Hs.
    destruct (String.compare k k0) eqn:E; cbn [map fst].
    + exact Hs.
    + constructor; [exact Hs|]. constructor; [exact E|].
      apply Forall_forall. intros x Hx.
      eapply string_compare_lt_trans; [exact E|].
      eapply sorted_head_lt; eassumption.
    + inversion Hs as [|? ? Hrest Hall]; subst.
      constructor; [apply IH; exact Hrest|].
      apply Forall_forall. intros x Hx.
      apply group_add_keys in Hx as [-> | Hx].
      * apply string_compare_gt_lt. exact E.
      * rewrite Forall_forall in Hall. apply Hall. exact Hx.
Qed.

(** Where an entry of the updated groups comes from. *)
Lemma group_add_In (k : string) (v : F) (groups : list (string * F)) :
  StronglySorted key_lt (map fst groups) ->
  forall k' v',
    In (k', v') (group_add zero add k v groups) ->
    (k' <> k /\ In (k', v') groups)
    \/ (k' = k
        /\ ((exists acc, In (k, acc) groups /\ v' = add acc v)
            \/ (~ In k (map fst groups) /\ v' = add zero v))).
Proof.
  induction groups as [|[k0 acc] rest IH]; intros Hs k' v'; cbn [group_add].
  - intros [[= <- <-] | []]. right. split; [reflexivity|]. right.
    split; [intros [] | reflexivity].
  - cbn [map fst] in Hs. pose proof (sorted_head_lt _ _ Hs) as Hhead.
    destruct (String.compare k k0) eqn:E.
    + apply String.compare_eq_iff in E. subst k0.
      intros [[= <- <-] | Hin].
      * right. split; [reflexivity|]. left. exists acc.
        split; [left; reflexivity | reflexivity].
      * left. split; [|right; exact Hin].
        apply not_eq_sym, string_compare_lt_neq, Hhead.
        apply (in_map fst) in Hin. exact Hin.
    + assert (Hnew : forall x, In x (k0 :: map fst rest) -> x <> k).
      { intros x [<- | Hx]; apply not_eq_sym, string_compare_lt_neq;
          [exact E|].
        eapply string_compare_lt_trans; [exact E | apply Hhead; exact Hx]. }
      intros [[= <- <-] | Hin].
      * right. split; [reflexivity|]. right. split; [|reflexivity].
        intros Hk. apply (Hnew k Hk). reflexivity.
      * left. split; [|exact Hin].
        apply Hnew. apply (in_map fst) in Hin. exact Hin.
    + assert (Hne : k0 <> k).
      { intros ->. rewrite string_compare_refl in E. discriminate. }
      inversion Hs as [|? ? Hrest _]; subst.
      intros [[= <- <-] | Hin].
      * left. split; [exact Hne | left; reflexivity].
      * destruct (IH Hrest k' v' Hin) as [[Hk Hi] | [Hk [[a [Ha Hv]] | [Hn Hv]]]].
        -- left. split; [exact Hk | right; exact Hi].
        -- right. split; [exact Hk|]. left. exists a.
           split; [right; exact Ha | exact Hv].
        -- right. split; [exact Hk|]. right. split; [|exact Hv].
           cbn [map fst In]. intros [H | H]; [exact (Hne H) | exact (Hn H)].
Qed.

Lemma group_total_snoc (k : string) (p : DataFrame F) (r : Row F) :
  group_total zero add key k (p ++ [r])
  = if String.eqb (key r) k then add (group_total zero add key k p) (Sales r)
    else group_total zero add key k p.
Proof.
  unfold group_total. rewrite filter_app. cbn [filter].
  destruct (String.eqb (key r) k).
  - rewrite map_app. unfold Series_sum. rewrite fold_left_app. reflexivity.
  - rewrite app_nil_r. reflexivity.
Qed.

Lemma group_step (p : DataFrame F) (r : Row F) (groups : list (string * F)) :
  StronglySorted key_lt (map fst groups) ->
  (forall k, In k (map fst groups) <-> exists r0, In r0 p /\ key r0 = k) ->
  (forall k v, In (k, v) groups -> v = group_total zero add key k p) ->
  StronglySorted key_lt (map fst (group_add zero add (key r) (Sales r) groups))
  /\ (forall k, In k (map fst (group_add zero add (key r) (Sales r) groups))
                <-> exists r0, In r0 (p ++ [r]) /\ key r0 = k)
  /\ (forall k v, In (k, v) (group_add zero add (key r) (Sales r) groups) ->
                  v = group_total zero add key k (p ++ [r])).
Proof.
  intros Hs Hk Hv. split; [apply group_add_sorted; exact Hs|]. split.
  - intros k. rewrite group_add_keys, Hk. split.
    + intros [-> | [r0 [Hr0 Hkey]]].
      * exists r. split; [apply in_or_app; right; left; reflexivity | reflexivity].
      * exists r0. split; [apply in_or_app; left; exact Hr0 | exact Hkey].
    + intros [r0 [Hr0 Hkey]]. apply in_app_or in Hr0 as [Hr0 | [<- | []]].
      * right. exists r0. split; assumption.
      * left. symmetry. exact Hkey.
  - intros k v Hin. rewrite group_total_snoc.
    destruct (group_add_In _ _ _ Hs k v Hin)
      as [[Hne Hi] | [-> [[a [Ha Hva]] | [Hn Hva]]]].
    + destruct (String.eqb_spec (key r) k) as [E|_];
        [symmetry in E; contradiction | apply Hv; exact Hi].
    + rewrite String.eqb_refl, Hva, (Hv _ _ Ha). reflexivity.
    + rewrite String.eqb_refl, Hva. f_equal.
      unfold group_total. rewrite filter_none; [reflexivity|].
      intros r0 Hr0. destruct (String.eqb_spec (key r0) (key r)) as [E|_];
        [|reflexivity].
      exfalso. apply Hn. apply Hk. exists r0. split; assumption.
Qed.

Lemma group_fold (df : DataFrame F) :
  forall (p : DataFrame F) (groups : list (string * F)),
    StronglySorted key_lt (map fst groups) ->
    (forall k, In k (map fst groups) <-> exists r0, In r0 p /\ key r0 = k) ->
    (forall k v, In (k, v) groups -> v = group_total zero add key k p) ->
    let out :=
      fold_left (fun g r => group_add zero add (key r) (Sales r) g) df groups in
    StronglySorted key_lt (map fst out)
    /\ (forall k, In k (map fst out) <-> exists r0, In r0 (p ++ df) /\ key r0 = k)
    /\ (forall k v, In (k, v) out -> v = group_total zero add key k (p ++ df)).
Proof.
  induction df as [|r df IH]; intros p groups Hs Hk Hv; cbn [fold_left].
  - cbv zeta. rewrite app_nil_r. auto.
  - destruct (group_step p r groups Hs Hk Hv) as [Hs' [Hk' Hv']].
    specialize (IH (p ++ [r]) _ Hs' Hk' Hv'). cbv zeta in IH |- *.
    rewrite <- app_assoc in IH. exact IH.
Qed.

Lemma groupby_sum_invariant (df : DataFrame F) :
  StronglySorted key_lt (map fst (groupby_sum zero add key df))
  /\ (forall k, In k (map fst (groupby_sum zero add key df))
                <-> exists r, In r df /\ key r = k)
  /\ (forall k v, In (k, v) (groupby_sum zero add key df) ->
                  v = group_total zero add key k df).
Proof.
  apply (group_fold df [] []).
  - constructor.
  - intros k. split; [intros [] | intros [r [[] _]]].
  - intros k v [].
Qed.

(** X9: the keys of a grouped sum are in strictly ascending order, none
    appears twice, and they are exactly the key values that occur in the
    frame: a key with no row gets no entry. *)
Theorem groupby_sum_keys (df : DataFrame F) :
  StronglySorted key_lt (map fst (groupby_sum zero add key df))
  /\ NoDup (map fst (groupby_sum zero add key df))
  /\ (forall k, In k (map fst (groupby_sum zero add key df))
                <-> exists r, In r df /\ key r = k).
Proof.
  destruct (groupby_sum_invariant df) as [Hs [Hk _]].
  split; [exact Hs|]. split; [|exact Hk].
  apply sorted_keys_NoDup. exact Hs.
Qed.

(** X10: the value recorded for a key is the sum of the sales of the rows
    with that key, added in frame order starting from zero. *)
Theorem groupby_sum_values (df : DataFrame F) :
  groupby_sum zero add key df
  = map (fun k => (k, group_total zero add key k df))
        (map fst (groupby_sum zero add key df)).
Proof.
  destruct (groupby_sum_invariant df) as [_ [_ Hv]].
  induction (groupby_sum zero add key df) as [|[k v] rest IH]; [reflexivity|].
  cbn [map fst]. f_equal.
  - f_equal. apply Hv. left. reflexivity.
  - apply IH. intros k' v' Hin. apply Hv. right. exact Hin.
Qed.

End GroupFacts.

(** ** Distinct values *)

Lemma unique_from_spec (col : list string) :
  forall seen,
    NoDup (unique_from seen col)
    /\ forall x, In x (unique_from seen col) -> In x col /\ ~ In x seen.
Proof.
  induction col as [|y col IH]; intros seen; cbn [unique_from].
  - split; [constructor | intros x []].
  - destruct (existsb (String.eqb y) seen) eqn:Hy.
    + destruct (IH seen) as [Hnd Hin]. split; [exact Hnd|].
      intros x Hx. destruct (Hin x Hx). split; [right|]; assumption.
    + destruct (IH (y :: seen)) as [Hnd Hin]. split.
      * constructor; [|exact Hnd]. intros Hx.
        destruct (Hin y Hx) as [_ Hn]. apply Hn. left. reflexivity.
      * intros x [<- | Hx].
        -- split; [left; reflexivity|].
           intros Hs. apply existsb_eqb_In in Hs. congruence.
        -- destruct (Hin x Hx) as [Hc Hn]. split; [right; exact Hc|].
           intros Hs. apply Hn. right. exact Hs.
Qed.

(** X11: the options and the default selection of each multiselect, the
    [unique()] of a column, hold every value of the column exactly once. *)
Theorem unique_distinct_values (col : list string) :
  NoDup (unique col) /\ forall x, In x (unique col) <-> In x col.
Proof.
  destruct (unique_from_spec col []) as [Hnd Hin]. split; [exact Hnd|].
  intros x. split; [intros Hx; apply (Hin x Hx) | apply unique_covers].
Qed.

(** ** The date filter, in timestamps *)

Lemma date_ltb_not_leb (a b : date) :
  date_ltb a b = true -> date_leb b a = false.
Proof.
  intros H. apply not_true_is_false. rewrite date_leb_iff.
  apply date_ltb_iff in H. lia.
Qed.

(** Dates compare as their timestamps do. *)
Lemma Timestamp_date_leb (a b : Timestamp) :
  date_leb (Timestamp_date a) (Timestamp_date b) = (a <=? b).
Proof.
  destruct (Z.leb_spec a b) as [H|H].
  - apply Timestamp_date_le. exact H.
  - apply date_ltb_not_leb, Timestamp_date_lt. exact H.
Qed.

(** X12: when the two bounds are the dates of timestamps [a] and [b], the
    date-range filter keeps exactly the rows whose timestamp [t] satisfies
    [a <= t <= b]: comparing dates agrees with comparing timestamps. *)
Theorem filter_by_date_timestamps {F : Type} (data : DataFrame F)
    (a b : Timestamp) :
  filter_by_date data (Timestamp_date a) (Timestamp_date b)
  = Some (filter (fun r => (a <=? Date r) && (Date r <=? b)) data).
Proof.
  rewrite filter_by_date_filter. f_equal. apply filter_ext.
  intros r. rewrite !Timestamp_date_leb. reflexivity.
Qed.

(** X14: each filter, applied to its own result with the same parameters,
    changes nothing; and the two filters can be applied in either order. *)
Theorem filters_compose {F : Type} (data : DataFrame F)
    (start_date end_date : date)
    (selected_categories selected_regions : list string) :
  (exists out,
     filter_by_date data start_date end_date = Some out
     /\ filter_by_date out start_date end_date = Some out)
  /\ (exists out,
        filter_by_membership data selected_categories selected_regions = Some out
        /\ filter_by_membership out selected_categories selected_regions = Some out)
  /\ (exists by_date by_names out,
        filter_by_date data start_date end_date = Some by_date
        /\ filter_by_membership data selected_categories selected_regions
           = Some by_names
        /\ filter_by_membership by_date selected_categories selected_regions
           = Some out
        /\ filter_by_date by_names start_date end_date = Some out).
Proof.
  assert (Hidem : forall (p : Row F -> bool) l, filter p (filter p l) = filter p l).
  { intros p l. apply filter_all. intros x Hx. apply filter_In in Hx. tauto. }
  assert (Hcomm : forall (p q : Row F -> bool) l,
             filter p (filter q l) = filter q (filter p l)).
  { intros p q l. induction l as [|x l IH]; [reflexivity|].
    cbn [filter]. destruct (p x) eqn:Hp, (q x) eqn:Hq; cbn [filter];
      rewrite ?Hp, ?Hq, IH; reflexivity. }
  split; [|split].
  - eexists. split; [apply filter_by_date_filter|].
    rewrite filter_by_date_filter, Hidem. reflexivity.
  - eexists. split; [apply filter_by_membership_filter|].
    rewrite filter_by_membership_filter, Hidem. reflexivity.
  - do 3 eexists.
    split; [apply filter_by_date_filter|].
    split; [apply filter_by_membership_filter|].
    split; [apply filter_by_membership_filter|].
    rewrite filter_by_date_filter, Hcomm. reflexivity.
Qed.

(** ** A window of days *)

Lemma map_filter_comm {A B : Type} (f : A -> B) (p : B -> bool) (l : list A) :
  map f (filter (fun x => p (f x)) l) = filter p (map f l).
Proof.
  induction l as [|x l IH]; [reflexivity|].
  cbn [filter map]. destruct (p (f x)); cbn [map]; rewrite IH; reflexivity.
Qed.

Lemma range_shift (lo : Z) (i m : nat) :
  map (fun k => lo + Z.of_nat k) (seq i m)
  = map (fun k => lo + Z.of_nat i + Z.of_nat k) (seq 0 m).
Proof.
  revert i. induction m as [|m IH]; intros i; [reflexivity|].
  cbn [seq map]. f_equal; [lia|].
  rewrite (IH (S i)), <- seq_shift, map_map.
  apply map_ext. intros k. lia.
Qed.

(** The days of a range that fall in a window inside it. *)
Lemma filter_range_window (lo a b : Z) (n : nat) :
  lo <= a -> a <= b -> b < lo + Z.of_nat n ->
  filter (fun t => (a <=? t) && (t <=? b))
         (map (fun k => lo + Z.of_nat k) (seq 0 n))
  = map (fun k => a + Z.of_nat k) (seq 0 (Z.to_nat (b - a + 1))).
Proof.
  intros Hlo Hab Hhi.
  set (i := Z.to_nat (a - lo)). set (m := Z.to_nat (b - a + 1)).
  replace n with (i + (m + (n - i - m)))%nat by lia.
  rewrite !seq_app, !map_app, !filter_app.
  rewrite (filter_none _ (map _ (seq 0 i))).
  2:{ intros t Ht. apply in_map_iff in Ht as [k [<- Hk]]. apply in_seq in Hk.
      apply andb_false_intro1. apply Z.leb_gt. lia. }
  rewrite (filter_none _ (map _ (seq (0 + i + m) _))).
  2:{ intros t Ht. apply in_map_iff in Ht as [k [<- Hk]]. apply in_seq in Hk.
      apply andb_false_intro2. apply Z.leb_gt. lia. }
  rewrite (filter_all _ (map _ (seq (0 + i) m))).
  2:{ intros t Ht. apply in_map_iff in Ht as [k [<- Hk]]. apply in_seq in Hk.
      apply andb_true_intro. split; apply Z.leb_le; lia. }
  cbn [app]. rewrite app_nil_r, range_shift.
  apply map_ext. intros k. lia.
Qed.

Section GeneratorWindow.

Variable rng_state : Type.
Variable seed : Z -> rng_state.
Variable randint : Z -> Z -> nat -> rng_state -> list Z * rng_state.
Variable sin64 : float -> float.

Hypothesis randint_length :
  forall lo hi n s, length (fst (randint lo hi n s)) = n.

(** X13: on the generated frame, the date-range filter from the date of
    day [a] to the date of day [b], both in 2023 with [a <= b], keeps
    [b - a + 1] rows, one for each day from [a] to [b] in order; in
    particular one row when both bounds are the same day. *)
Theorem generate_data_window (s0 : rng_state) (a b : Timestamp) :
  19358 <= a -> a <= b -> b <= 19722 ->
  exists df out,
    fst (generate_data seed randint sin64 s0) = Some df
    /\ filter_by_date df (Timestamp_date a) (Timestamp_date b) = Some out
    /\ length out = Z.to_nat (b - a + 1)
    /\ map Date out = map (fun k => a + Z.of_nat k) (seq 0 (Z.to_nat (b - a + 1))).
Proof.
  intros Ha Hab Hb.
  destruct (generate_data_columns rng_state seed randint sin64 randint_length s0)
    as [cs [rs [Hc [Hg Hdf]]]].
  eexists. eexists. split; [exact Hdf|].
  split; [apply filter_by_date_timestamps|].
  set (df := zip_rows dates_2023 _ cs rs).
  assert (HD : map Date df = dates_2023).
  { apply zip_rows_Date;
      [apply (sales_length rng_state seed randint sin64 randint_length)
      | rewrite Hc | rewrite Hg]; reflexivity. }
  assert (Hout : map Date (filter (fun r => (a <=? Date r) && (Date r <=? b)) df)
                 = map (fun k => a + Z.of_nat k) (seq 0 (Z.to_nat (b - a + 1)))).
  { rewrite (map_filter_comm Date (fun t => (a <=? t) && (t <=? b))), HD.
    unfold dates_2023. apply filter_range_window; lia. }
  split; [|exact Hout].
  rewrite <- (length_map Date), Hout, length_map, length_seq. reflexivity.
Qed.

End GeneratorWindow.

Lemma generate_data_window_witness :
  exists df out,
    fst (generate_data Lcg.seed Lcg.randint sin_series 0) = Some df
    /\ filter_by_date df (mkdate 2023 1 1) (mkdate 2023 1 1) = Some out
    /\ length out = 1%nat
    /\ map Date out = [19358].
Proof.
  exact (generate_data_window Lcg.state Lcg.seed Lcg.randint sin_series
           Lcg_randint_length
           0 19358 19358 ltac:(lia) ltac:(lia) ltac:(lia)).
Defined.

Lemma days_to_yearsdays_inverse (t : Z) :
  let '(y, d) := days_to_yearsdays t in
  get_datetimestruct_days (mkdate y 1 1) + d = t.
Proof.
  unfold days_to_yearsdays, get_datetimestruct_days, is_leapyear.
  cbn [year month day].
  change (400 * 365 + 100 - 4 + 1) with 146097.
  change (365 * 30 + 7) with 10957.
  change (100 * 365 + 25 - 1) with 36524.
  change (4 * 365 + 1) with 1461.
  change (Z.to_nat (1 - 1)) with 0%nat. cbn [firstn fold_right].
  cbv zeta.
  repeat match goal with
  | |- context [?a <=? ?b] => destruct (Z.leb_spec a b)
  end; cbn [fst snd]; Z.to_euclidean_division_equations; lia.
Qed.

Lemma month_of_yearday_inverse (lengths : list Z) :
  forall i d,
    fold_right Z.add 0
      (firstn (Z.to_nat (fst (month_of_yearday lengths i d) - i - 1)) lengths)
    + (snd (month_of_yearday lengths i d) - 1) = d.
Proof.
  induction lengths as [|len rest IH]; intros i d; cbn [month_of_yearday].
  - cbn [fst snd]. rewrite firstn_nil. cbn [fold_right]. lia.
  - destruct (Z.ltb_spec d len) as [Hlt|Hge]; cbn [fst snd].
    + replace (i + 1 - i - 1) with 0 by lia. cbn [Z.to_nat firstn fold_right]. lia.
    + pose proof (month_of_yearday_lower rest (i + 1) (d - len)) as Hm.
      specialize (IH (i + 1) (d - len)).
      set (m := fst (month_of_yearday rest (i + 1) (d - len))) in *.
      replace (Z.to_nat (m - i - 1)) with (S (Z.to_nat (m - (i + 1) - 1))) by lia.
      cbn [firstn fold_right]. lia.
Qed.

(** The date of a timestamp converts back to the timestamp. *)
Lemma Timestamp_date_inverse (t : Timestamp) :
  get_datetimestruct_days (Timestamp_date t) = t.
Proof.
  pose proof (days_to_yearsdays_inverse t) as Hy.
  unfold Timestamp_date. destruct (days_to_yearsdays t) as [y d].
  pose proof (month_of_yearday_inverse (days_per_month_table (is_leapyear y)) 0 d)
    as Hm.
  destruct (month_of_yearday (days_per_month_table (is_leapyear y)) 0 d) as [m x].
  cbn [fst snd] in Hm.
  unfold get_datetimestruct_days in *. cbn [year month day] in *.
  change (Z.to_nat (1 - 1)) with 0%nat in Hy. cbn [firstn fold_right] in Hy.
  replace (m - 0 - 1) with (m - 1) in Hm by lia.
  cbv zeta in *. lia.
Qed.

(** ** Reading a date back *)

Lemma str_nonneg_year_reads (y : Z) :
  1677 <= y <= 2262 -> reads_as 4 y (str_nonneg y) = true.
Proof.
  intros Hy.
  apply (range_forallb (fun z => reads_as 4 z (str_nonneg z)) 1677 586);
    [vm_compute; reflexivity | lia].
Qed.

Lemma str_02d_reads (n : Z) :
  0 <= n <= 99 -> reads_as 2 n (str_02d n) = true.
Proof.
  intros Hn.
  apply (range_forallb (fun z => reads_as 2 z (str_02d z)) 0 100);
    [vm_compute; reflexivity | lia].
Qed.

Lemma to_datetime_parts (ys ms ds : string) (y m d : Z) :
  reads_as 4 y ys = true -> reads_as 2 m ms = true -> reads_as 2 d ds = true ->
  to_datetime (ys ++ "-" ++ ms ++ "-" ++ ds)
  = if valid_date (mkdate y m d)
    then Some (get_datetimestruct_days (mkdate y m d)) else None.
Proof.
  unfold reads_as. rewrite !andb_true_iff. intros [Ly Vy] [Lm Vm] [Ld Vd].
  destruct ys as [|y1 [|y2 [|y3 [|y4 [|]]]]]; try discriminate.
  destruct ms as [|m1 [|m2 [|]]]; try discriminate.
  destruct ds as [|d1 [|d2 [|]]]; try discriminate.
  unfold to_datetime. cbn [append list_ascii_of_string].
  cbn [digits_value] in Vy, Vm, Vd.
  destruct (digit_of_ascii y1) as [a|]; [|discriminate].
  destruct (digit_of_ascii y2) as [b|]; [|discriminate].
  destruct (digit_of_ascii y3) as [c|]; [|discriminate].
  destruct (digit_of_ascii y4) as [e|]; [|discriminate].
  destruct (digit_of_ascii m1) as [f|]; [|discriminate].
  destruct (digit_of_ascii m2) as [g|]; [|discriminate].
  destruct (digit_of_ascii d1) as [h|]; [|discriminate].
  destruct (digit_of_ascii d2) as [j|]; [|discriminate].
  apply Z.eqb_eq in Vy, Vm, Vd.
  cbn [obind]. rewrite !Ascii.eqb_refl. cbn [andb].
  replace (1000 * a + 100 * b + 10 * c + e) with y by lia.
  replace (10 * f + g) with m by lia.
  replace (10 * h + j) with d by lia.
  reflexivity.
Qed.

(** X15: a timestamp in range, written as the Date field of the export,
    reads back as the same timestamp. *)
Theorem format_date_round_trip (t : Timestamp) :
  in_Timestamp_range t = true -> to_datetime (format_date t) = Some t.
Proof.
  intros Hr. pose proof (Timestamp_date_year_range t Hr) as Hy.
  pose proof (Timestamp_date_valid t) as Hv.
  pose proof (Timestamp_date_inverse t) as Hinv.
  unfold format_date. cbv zeta.
  set (dt := Timestamp_date t) in *.
  assert (Hb := Hv). unfold valid_date in Hb.
  rewrite !andb_true_iff, !Z.leb_le in Hb.
  pose proof (days_in_month_le_31 (year dt) (month dt)).
  rewrite (to_datetime_parts _ _ _ (year dt) (month dt) (day dt)).
  - destruct dt as [y m d]. cbn [year month day] in *. rewrite Hv, Hinv.
    reflexivity.
  - apply str_nonneg_year_reads. exact Hy.
  - apply str_02d_reads. lia.
  - apply str_02d_reads. lia.
Qed.

Lemma format_date_round_trip_witness :
  format_date 19358 = "2023-01-01"%string
  /\ to_datetime (format_date 19358) = Some 19358.
Proof.
  split; [reflexivity|].
  apply (format_date_round_trip 19358). reflexivity.
Defined.
